(** * Server actions of the chat application: prompts, settings, documents

    A shallow embedding of [src/app/_lib/actions.ts] and the properties of
    its exported actions.

    The actions are sequential [async] functions over a relational store
    (drizzle), the file system, the parsing libraries and the text
    processing helpers.  An action is embedded as a function from the
    world before the call to the world after it together with the value
    returned or the value thrown.  The outcome of every external call an
    action awaits (whether it throws, what the database assigns, what a
    parser returns) is read from an environment [Env], so that the
    embedding stays executable. *)

From Stdlib Require Import String Ascii List ZArith Bool Lia Floats.
From Stdlib Require Import Sorting.Sorted Sorting.Permutation.
Import ListNotations.
Local Open Scope string_scope.
Local Open Scope Z_scope.

Set Implicit Arguments.

(* ================================================================== *)
(** ** JavaScript strings and arrays *)
(* ================================================================== *)

Module Js.

(** [String.prototype.split(sep)] for a one-character separator: the
    segments between the occurrences of [sep], in order; never empty
    ([''.split('.')] is [['']]). *)
Fixpoint split (sep : ascii) (s : string) : list string :=
  match s with
  | EmptyString => [EmptyString]
  | String c rest =>
      if Ascii.eqb c sep then EmptyString :: split sep rest
      else match split sep rest with
           | [] => [String c EmptyString]
           | seg :: segs => String c seg :: segs
           end
  end.

(** [Array.prototype.pop()]: the last element, [undefined] ([None]) on
    the empty array. *)
Fixpoint pop (A : Type) (l : list A) : option A :=
  match l with
  | [] => None
  | [x] => Some x
  | _ :: l' => pop l'
  end.

(** ['.' + v]: string concatenation coerces [undefined] to its name. *)
Definition dot_plus (v : option string) : string :=
  match v with
  | Some s => "." ++ s
  | None => ".undefined"
  end.

(** [Array.prototype.includes] on an array of strings. *)
Fixpoint includes (l : list string) (s : string) : bool :=
  match l with
  | [] => false
  | x :: l' => if String.eqb x s then true else includes l' s
  end.

(** [String.prototype.slice(start, end)]: negative indices count from the
    end, both are clamped to the string, an empty range gives ['']. *)
Definition clamp_index (len i : Z) : Z :=
  if i <? 0 then Z.max (len + i) 0 else Z.min i len.

Definition slice (start_ end_ : Z) (s : string) : string :=
  let len := Z.of_nat (String.length s) in
  let from := clamp_index len start_ in
  let to := clamp_index len end_ in
  let span := Z.max (to - from) 0 in
  substring (Z.to_nat from) (Z.to_nat span) s.

(** Truthiness of [string | null]: [null] and [''] are falsy. *)
Definition truthy (v : option string) : bool :=
  match v with
  | None => false
  | Some EmptyString => false
  | Some _ => true
  end.

(** A thrown value: an [Error] object with its message, or any other
    value (which [instanceof Error] rejects). *)
Inductive Thrown : Type :=
| Error (message : string)
| NonError.

(** The completion of an awaited call. *)
Inductive Result (A : Type) : Type :=
| Ok (a : A)
| Throw (t : Thrown).
Arguments Ok {A} a.
Arguments Throw {A} t.

End Js.
Import Js.

(* ================================================================== *)
(** ** Data model: rows, files, forms *)
(* ================================================================== *)

(** Row of the [Prompts] table. *)
Record Prompt : Type := mkPrompt {
  prompt_id : Z;
  title : string;
  content : string
}.

(** Row of the [Settings] table; a column the form did not carry is
    [undefined] on insert. *)
Record Settings : Type := mkSettings {
  username : option string;
  system : option string
}.

(** Row of the [Documents] table. *)
Record Document : Type := mkDocument {
  id : Z;
  name : string;
  size : Z;
  extension : string;
  createdAt : Z
}.

(** An embedding vector: [number[]]. *)
Definition Vector : Type := list float.

(** Row of the embeddings table written by [bulkInsertEmbeddings]. *)
Record Embedding : Type := mkEmbedding {
  chunk : string;
  embedding : Vector;
  documentId : Z
}.

(** An uploaded [File]: its name, its size and its bytes. *)
Record File : Type := mkFile {
  file_name : string;
  file_size : Z;
  file_bytes : list Byte.byte
}.

(** The submitted form.  The actions read the fields [prompt], [title],
    [username] and [system] with string methods and the field [file]
    through a cast to [File]; the form is modelled with its text fields
    as strings and its file field apart. *)
Record FormData : Type := mkFormData {
  text_fields : list (string * string);
  file_field : option File
}.

(** [formData.get(key)] on a text field: the first value, or [null]. *)
Fixpoint lookup_field (fs : list (string * string)) (key : string) : option string :=
  match fs with
  | [] => None
  | (k, v) :: fs' => if String.eqb k key then Some v else lookup_field fs' key
  end.

Definition get (fd : FormData) (key : string) : option string :=
  lookup_field (text_fields fd) key.

(* ================================================================== *)
(** ** The world and the environment *)
(* ================================================================== *)

(** The external calls the actions make. *)
Inductive Call : Type :=
| DbSelectPrompts
| DbInsertPrompt
| DbDeletePrompt
| DbSelectSettings
| DbDeleteSettings
| DbInsertSettings
| DbSelectDocumentByName
| DbInsertDocument
| DbSelectDocuments
| FileArrayBuffer
| FsMkdir
| FsWriteFile
| FileText
| PdfParse
| MammothExtractRawText
| ChunkUpText
| GenerateEmbedding
| BulkInsertEmbeddings
| RevalidatePath (path : string)
| ConsoleError.

(** The persistent state the actions act on, and the log of the external
    calls made so far, oldest first. *)
Record World : Type := mkWorld {
  prompts : list Prompt;
  settings : list Settings;
  documents : list Document;
  embeddings : list Embedding;
  disk : list (string * list Byte.byte);
  log : list Call
}.

Definition set_prompts (ps : list Prompt) (w : World) : World :=
  mkWorld ps (settings w) (documents w) (embeddings w) (disk w) (log w).
Definition set_settings (ss : list Settings) (w : World) : World :=
  mkWorld (prompts w) ss (documents w) (embeddings w) (disk w) (log w).
Definition set_documents (ds : list Document) (w : World) : World :=
  mkWorld (prompts w) (settings w) ds (embeddings w) (disk w) (log w).
Definition set_embeddings (es : list Embedding) (w : World) : World :=
  mkWorld (prompts w) (settings w) (documents w) es (disk w) (log w).
Definition set_disk (d : list (string * list Byte.byte)) (w : World) : World :=
  mkWorld (prompts w) (settings w) (documents w) (embeddings w) d (log w).
Definition add_log (c : Call) (w : World) : World :=
  mkWorld (prompts w) (settings w) (documents w) (embeddings w) (disk w)
          (log w ++ [c]).

(** What one invocation of an action meets outside its own code.
    - [fault c]: the value the external call [c] throws, if it throws;
    - [new_id], [now]: the defaults the database assigns to an inserted
      row ([id], [createdAt]);
    - [SAVE_RAW_DOCUMENT_LOCAL]: whether [process.env.SAVE_RAW_DOCUMENT_LOCAL]
      is ['true'];
    - [cwd], [path_join]: [process.cwd()] and [path.join];
    - [decode_text], [pdf_text], [docx_text]: what [file.text()],
      [pdfParse] and [mammoth.extractRawText] return;
    - [chunkUpText], [generateEmbedding], [bulkInsertEmbeddings]: the
      helpers of [@/helpers/textProcessing], which [actions.ts] imports;
      they complete as these functions say, not as [fault] says.
      [bulkInsertEmbeddings chunks vectors documentId] maps the
      embeddings table before the call to the table after it and the
      call's completion. *)
Record Env : Type := mkEnv {
  fault : Call -> option Thrown;
  new_id : Z;
  now : Z;
  SAVE_RAW_DOCUMENT_LOCAL : bool;
  cwd : string;
  path_join : string -> string -> string;
  decode_text : File -> string;
  pdf_text : list Byte.byte -> string;
  docx_text : list Byte.byte -> string;
  chunkUpText : string -> Result (list string);
  generateEmbedding : list string -> Result (list Vector);
  bulkInsertEmbeddings :
    list string -> list Vector -> Z -> list Embedding ->
    list Embedding * Result unit
}.

(* ================================================================== *)
(** ** Actions as world transformers *)
(* ================================================================== *)

(** An action maps the world to the world after it and its completion.
    A thrown value does not undo what was done before it. *)
Definition Action (A : Type) : Type := World -> World * Result A.

Definition ret (A : Type) (a : A) : Action A := fun w => (w, Ok a).

Definition throw (A : Type) (t : Thrown) : Action A := fun w => (w, Throw t).

Definition bind (A B : Type) (m : Action A) (k : A -> Action B) : Action B :=
  fun w =>
    match m w with
    | (w', Ok a) => k a w'
    | (w', Throw t) => (w', Throw t)
    end.

(** [try { body } catch (err) { handler err }]. *)
Definition try_catch (A : Type) (body : Action A) (handler : Thrown -> Action A)
  : Action A :=
  fun w =>
    match body w with
    | (w', Ok a) => (w', Ok a)
    | (w', Throw t) => handler t w'
    end.

Declare Scope action_scope.
Delimit Scope action_scope with action.
Notation "x <- m ;; k" := (bind m (fun x => k))
  (at level 61, m at next level, right associativity) : action_scope.
Notation "m ;; k" := (bind m (fun _ => k))
  (at level 61, right associativity) : action_scope.
Local Open Scope action_scope.

(** [throw new Error(message)]. *)
Definition throw_error (A : Type) (message : string) : Action A :=
  throw A (Error message).

Section Actions.

Variable env : Env.

(** An awaited external call: it is logged; if the environment makes it
    throw, nothing else happens (a statement that fails changes no
    table); otherwise [effect] gives its result and the world after. *)
Definition call (A : Type) (c : Call) (effect : World -> World * A) : Action A :=
  fun w =>
    let w1 := add_log c w in
    match fault env c with
    | Some t => (w1, Throw t)
    | None => let (w2, a) := effect w1 in (w2, Ok a)
    end.

(** A call that only reads. *)
Definition query (A : Type) (c : Call) (read : World -> A) : Action A :=
  call c (fun w => (w, read w)).

(** A call that only writes. *)
Definition command (c : Call) (write : World -> World) : Action unit :=
  call c (fun w => (write w, tt)).

Definition console_error : Action unit :=
  fun w => (add_log ConsoleError w, Ok tt).

Definition revalidatePath (path : string) : Action unit :=
  command (RevalidatePath path) (fun w => w).

(** [revalidatePathAction] *)
Definition revalidatePathAction (path : string) : Action unit :=
  revalidatePath path.

(* ---------------------------------------------------------------- *)
(** *** Prompts *)

(** [getAllPrompts] *)
Definition getAllPrompts : Action (list Prompt) :=
  try_catch
    (result <- query DbSelectPrompts prompts ;;
     ret result)
    (fun _ => console_error ;; throw_error _ "Error fetching prompts").

(** [addNewPrompt] *)
Definition addNewPrompt (formData : FormData) : Action unit :=
  let prompt := get formData "prompt" in
  let title := get formData "title" in
  if negb (truthy prompt) || negb (truthy title)
  then throw_error _ "Invalid form data"
  else
    match prompt, title with
    | Some prompt, Some title =>
        try_catch
          (command DbInsertPrompt
             (fun w => set_prompts
                         (prompts w ++
                            [mkPrompt (new_id env) (slice 0 150 title)
                                      (slice 0 1000 prompt)]) w) ;;
           revalidatePath "/prompts")
          (fun _ => console_error ;; throw_error _ "Error adding new prompt")
    | _, _ => throw_error _ "Invalid form data"
    end.

(** [deletePrompt] *)
Definition deletePrompt (id : Z) : Action unit :=
  try_catch
    (command DbDeletePrompt
       (fun w => set_prompts
                   (filter (fun p => negb (prompt_id p =? id)) (prompts w)) w) ;;
     revalidatePath "/prompts")
    (fun _ => console_error ;; throw_error _ "Error deleting prompt").

(* ---------------------------------------------------------------- *)
(** *** Settings *)

(** [getAllSettings]: [const [result] = ...limit(1); return result]. *)
Definition getAllSettings : Action (option Settings) :=
  try_catch
    (rows <- query DbSelectSettings (fun w => firstn 1 (settings w)) ;;
     ret (hd_error rows))
    (fun _ => console_error ;; throw_error _ "Error fetching settings").

(** [updateSettings] *)
Definition updateSettings (formData : FormData) : Action unit :=
  let username := option_map (slice 0 100) (get formData "username") in
  let system := option_map (slice 0 1000) (get formData "system") in
  try_catch
    (settings_rows <- query DbSelectSettings settings ;;
     (if (length settings_rows =? 0)%nat
      then
        command DbInsertSettings
          (fun w => set_settings (settings w ++ [mkSettings username system]) w)
      else
        command DbDeleteSettings (set_settings []) ;;
        command DbInsertSettings
          (fun w => set_settings (settings w ++ [mkSettings username system]) w)) ;;
     revalidatePath "/settings")
    (fun _ => console_error ;; throw_error _ "Error updating settings").

(* ---------------------------------------------------------------- *)
(** *** Documents *)

Definition DOCUMENT_FOLDER : string := ".documents".

Definition accepted_extensions : list string := [".txt"; ".pdf"; ".docx"].

(** ['.' + fileName.split('.').pop()] *)
Definition fileExtension (fileName : string) : string :=
  dot_plus (pop (split "." fileName)).

(** [db.select().from(Documents).where(eq(Documents.name, name))] *)
Definition documents_named (n : string) (w : World) : list Document :=
  filter (fun d => String.eqb (name d) n) (documents w).

(** The [switch (fileExtension)]: the text of the document. *)
Definition extract_text (file : File) (fileBuffer : list Byte.byte)
           (ext : string) : Action string :=
  if String.eqb ext ".txt" then
    query FileText (fun _ => decode_text env file)
  else if String.eqb ext ".pdf" then
    query PdfParse (fun _ => pdf_text env fileBuffer)
  else if String.eqb ext ".docx" then
    query MammothExtractRawText (fun _ => docx_text env fileBuffer)
  else ret "".

(** Chunk the text, embed the chunks, insert chunks and vectors under
    [createdDocument.id]. *)
Definition chunk_embed_insert (extractedRawText : string)
           (createdDocument : option Document) : Action unit :=
  chunkedText <-
    (fun w => (add_log ChunkUpText w, chunkUpText env extractedRawText)) ;;
  embeddings_ <-
    (fun w => (add_log GenerateEmbedding w, generateEmbedding env chunkedText)) ;;
  match createdDocument with
  | Some d =>
      fun w =>
        let w1 := add_log BulkInsertEmbeddings w in
        let (es, r) :=
          bulkInsertEmbeddings env chunkedText embeddings_ (id d) (embeddings w1) in
        (set_embeddings es w1, r)
  | None => throw _ (Error "Cannot read properties of undefined (reading 'id')")
  end.

(** The inner [try] of [uploadFile]: parse, chunk, embed, insert. *)
Definition extract_and_embed (file : File) (fileBuffer : list Byte.byte)
           (ext : string) (createdDocument : option Document) : Action unit :=
  try_catch
    (extractedRawText <- extract_text file fileBuffer ext ;;
     chunk_embed_insert extractedRawText createdDocument)
    (fun _ => console_error ;; throw_error _ "Error embedding document").

(** The block under [if (SAVE_RAW_DOCUMENT_LOCAL)]. *)
Definition save_raw_file (fileName : string) (fileBuffer : list Byte.byte)
  : Action unit :=
  if SAVE_RAW_DOCUMENT_LOCAL env then
    let documentFolder := path_join env (cwd env) ("/" ++ DOCUMENT_FOLDER) in
    let filePath := path_join env documentFolder fileName in
    try_catch
      (command FsMkdir (fun w => w) ;;
       command FsWriteFile
         (fun w => set_disk (disk w ++ [(filePath, fileBuffer)]) w))
      (fun _ => console_error ;; throw_error _ "Error writing file locally")
  else ret tt.

(** The outer [catch] of [uploadFile]. *)
Definition rethrow (A : Type) (err : Thrown) : Action A :=
  match err with
  | Error message => throw_error _ message
  | NonError => throw_error _ "Error uploading file"
  end.

(** The row [uploadFile] inserts for [file]. *)
Definition document_row (file : File) : Document :=
  mkDocument (new_id env) (file_name file) (file_size file)
             (fileExtension (file_name file)) (now env).

(** [uploadFile] *)
Definition uploadFile (formData : FormData) : Action unit :=
  try_catch
    (match file_field formData with
     | None => throw_error _ "No file provided"
     | Some file =>
         let name := file_name file in
         let fileName := file_name file in
         let fileExtension := fileExtension fileName in
         if negb (includes accepted_extensions fileExtension)
         then throw_error _ "Invalid file type"
         else
           found <- query DbSelectDocumentByName (documents_named name) ;;
           match hd_error found with
           | Some _ => throw_error _ "This document already exists"
           | None =>
               created <-
                 call DbInsertDocument
                   (fun w =>
                      (set_documents (documents w ++ [document_row file]) w,
                       [document_row file])) ;;
               let createdDocument := hd_error created in
               fileBuffer <- query FileArrayBuffer (fun _ => file_bytes file) ;;
               save_raw_file fileName fileBuffer ;;
               extract_and_embed file fileBuffer fileExtension createdDocument
           end
     end)
    (@rethrow unit).

(** [getAllDocuments]: [orderBy(desc(Documents.createdAt))].  The rows
    are inserted one by one into the ordered result, a row going before
    the first one that is not newer than it. *)
Fixpoint insert_desc (d : Document) (l : list Document) : list Document :=
  match l with
  | [] => [d]
  | x :: l' => if createdAt x <=? createdAt d then d :: l
               else x :: insert_desc d l'
  end.

Definition orderBy_desc_createdAt (l : list Document) : list Document :=
  fold_right insert_desc [] l.

Definition getAllDocuments : Action (list Document) :=
  try_catch
    (documents_ <- query DbSelectDocuments
                     (fun w => orderBy_desc_createdAt (documents w)) ;;
     ret documents_)
    (fun _ => console_error ;; throw_error _ "Error fetching documents").

End Actions.

(* ================================================================== *)
(** ** Notions the properties are stated with *)
(* ================================================================== *)

(** [segs.join(sep)] *)
Fixpoint join (sep : ascii) (segs : list string) : string :=
  match segs with
  | [] => EmptyString
  | [seg] => seg
  | seg :: segs' => seg ++ String sep (join sep segs')
  end.

(** [s.includes(c)] for a character. *)
Fixpoint contains_char (c : ascii) (s : string) : bool :=
  match s with
  | EmptyString => false
  | String c' s' => Ascii.eqb c' c || contains_char c s'
  end.

(** ASCII [toLowerCase]. *)
Definition lower_char (c : ascii) : ascii :=
  let n := nat_of_ascii c in
  if ((65 <=? n) && (n <=? 90))%nat then ascii_of_nat (n + 32) else c.

Fixpoint toLowerCase (s : string) : string :=
  match s with
  | EmptyString => EmptyString
  | String c s' => String (lower_char c) (toLowerCase s')
  end.

Definition is_lowercase (s : string) : bool := String.eqb (toLowerCase s) s.

(** Documents as [uploadFile] stores them: the extension column is the
    dispatch key of the name and is an accepted one. *)
Definition stored_by_upload (d : Document) : Prop :=
  extension d = fileExtension (name d) /\
  includes accepted_extensions (extension d) = true.

Definition documents_wf (w : World) : Prop :=
  Forall stored_by_upload (documents w).

(** The chunks of a document. *)
Definition chunks_of (docId : Z) (w : World) : list Embedding :=
  filter (fun e => documentId e =? docId) (embeddings w).

(** What the Document table holds after [uploadFile] inserted the row of
    an accepted file [f]. *)
Definition document_created (env : Env) (fd : FormData) (w w' : World) : Prop :=
  exists f,
    file_field fd = Some f /\
    includes accepted_extensions (fileExtension (file_name f)) = true /\
    documents w' = (documents w ++ [document_row env f])%list.

(** The messages of the failures [uploadFile] raises itself. *)
Definition upload_messages : list string :=
  ["No file provided"; "Invalid file type"; "This document already exists";
   "Error writing file locally"; "Error embedding document"].

(** Whether the raw-file block fails: the flag is set and [mkdir] or
    [writeFile] throws. *)
Definition local_write_fails (env : Env) : bool :=
  SAVE_RAW_DOCUMENT_LOCAL env &&
  match fault env FsMkdir, fault env FsWriteFile with
  | None, None => false
  | _, _ => true
  end.

(** The calls of [uploadFile] that sit outside its inner [try] blocks:
    what they throw reaches the outer [catch] as it is. *)
Definition upload_bare_calls : list Call :=
  [DbSelectDocumentByName; DbInsertDocument; FileArrayBuffer].

(** The message the outer [catch] of [uploadFile] gives to what the call
    [c] threw. *)
Definition surfaced_from (env : Env) (c : Call) (message : string) : Prop :=
  fault env c = Some (Error message) \/
  (fault env c = Some NonError /\ message = "Error uploading file").

(** The parser [uploadFile] awaits for a dispatch key did not throw. *)
Definition extractor_completes (env : Env) (ext : string) : Prop :=
  (ext = ".txt" -> fault env FileText = None) /\
  (ext = ".pdf" -> fault env PdfParse = None) /\
  (ext = ".docx" -> fault env MammothExtractRawText = None).

(** Parsing, chunking, embedding and bulk insertion for document [docId]
    all completed, and took the embeddings table from [es] to [es']. *)
Definition pipeline_completes (env : Env) (ext : string) (docId : Z)
           (es es' : list Embedding) : Prop :=
  extractor_completes env ext /\
  exists text chunks vectors,
    chunkUpText env text = Ok chunks /\
    generateEmbedding env chunks = Ok vectors /\
    bulkInsertEmbeddings env chunks vectors docId es = (es', Ok tt).

(** Modelled from the spec: [bulkInsertEmbeddings] (in
    [@/helpers/textProcessing], not among the sources) inserts the rows
    of one document as a single atomic unit, all of them or none: a call
    that throws leaves the embeddings table as it was. *)
Definition bulk_insert_atomic (env : Env) : Prop :=
  forall chunks vectors docId es es' t,
    bulkInsertEmbeddings env chunks vectors docId es = (es', Throw t) ->
    es' = es.

(** The row [addNewPrompt] stored is the submitted title and prompt cut
    to 150 and 1000 characters. *)
Definition stored_truncated (fd : FormData) (w w' : World) : Prop :=
  exists t p row,
    get fd "title" = Some t /\ get fd "prompt" = Some p /\
    prompts w' = (prompts w ++ [row])%list /\
    title row = slice 0 150 t /\ content row = slice 0 1000 p /\
    (String.length (title row) <= 150)%nat /\
    (String.length (content row) <= 1000)%nat /\
    (exists rest, t = title row ++ rest) /\
    (exists rest, p = content row ++ rest).

(** The row [updateSettings] inserts for a form. *)
Definition settings_row_of (fd : FormData) : Settings :=
  mkSettings (option_map (slice 0 100) (get fd "username"))
             (option_map (slice 0 1000) (get fd "system")).

(** A sequence of [updateSettings] calls, each with its environment and
    its form, whatever each call's completion. *)
Fixpoint updateSettings_all (calls : list (Env * FormData)) (w : World) : World :=
  match calls with
  | [] => w
  | (env, fd) :: rest => updateSettings_all rest (fst (updateSettings env fd w))
  end.

(** Whether the external call [c] throws. *)
Definition faults (env : Env) (c : Call) : bool :=
  match fault env c with
  | Some _ => true
  | None => false
  end.

(** Whether one of the calls [updateSettings] makes on [w] throws. *)
Definition updateSettings_faults (env : Env) (w : World) : bool :=
  faults env DbSelectSettings ||
  (match settings w with
   | [] => false
   | _ :: _ => faults env DbDeleteSettings
   end) ||
  faults env DbInsertSettings ||
  faults env (RevalidatePath "/settings").

(** Newest first. *)
Definition newer_or_equal (a b : Document) : Prop := createdAt b <= createdAt a.

(** The tables and the disk of two worlds agree (their logs may differ). *)
Definition same_tables (w w' : World) : Prop :=
  prompts w' = prompts w /\ settings w' = settings w /\
  documents w' = documents w /\ embeddings w' = embeddings w /\
  disk w' = disk w.

(** [revalidatePath] calls. *)
Definition is_revalidate (c : Call) : bool :=
  match c with
  | RevalidatePath _ => true
  | _ => false
  end.

(** The text the [switch] of [uploadFile] extracts from a file, when the
    parser of its dispatch key completes. *)
Definition extracted_text (env : Env) (f : File) : string :=
  let ext := fileExtension (file_name f) in
  if String.eqb ext ".txt" then decode_text env f
  else if String.eqb ext ".pdf" then pdf_text env (file_bytes f)
  else if String.eqb ext ".docx" then docx_text env (file_bytes f)
  else "".

(** Where [uploadFile] writes the raw bytes of a file:
    [path.join(path.join(process.cwd(), '/.documents'), fileName)]. *)
Definition raw_file_path (env : Env) (f : File) : string :=
  path_join env (path_join env (cwd env) ("/" ++ DOCUMENT_FOLDER)) (file_name f).

(** The last segments [uploadFile] accepts. *)
Definition accepted_suffixes : list string := ["txt"; "pdf"; "docx"].

(** The names of the stored documents. *)
Definition document_names (w : World) : list string := map name (documents w).

(** No call of the list is a [revalidatePath]. *)
Definition no_revalidate (l : list Call) : bool :=
  forallb (fun c => negb (is_revalidate c)) l.

(** The calls an action made: the log after it is the log before it
    followed by calls none of which is a [revalidatePath]. *)
Definition logged_without_revalidate (w w' : World) : Prop :=
  exists l, log w' = (log w ++ l)%list /\ no_revalidate l = true.

(** The disk after [uploadFile]: the raw bytes are written, once, under
    the document folder, only when the flag is set. *)
Definition upload_disk (env : Env) (fd : FormData) (w w' : World)
           (r : Result unit) : Prop :=
  match r with
  | Ok _ =>
      exists f, file_field fd = Some f /\
                disk w' = if SAVE_RAW_DOCUMENT_LOCAL env
                          then (disk w ++ [(raw_file_path env f, file_bytes f)])%list
                          else disk w
  | Throw _ =>
      disk w' = disk w \/
      (SAVE_RAW_DOCUMENT_LOCAL env = true /\
       exists f, file_field fd = Some f /\
                 disk w' = (disk w ++ [(raw_file_path env f, file_bytes f)])%list)
  end.

(** What a completed [uploadFile] has stored as chunks: the chunks of the
    extracted text and their vectors, under the id of the new row. *)
Definition upload_flow (env : Env) (fd : FormData) (w w' : World)
           (r : Result unit) : Prop :=
  match r with
  | Ok _ =>
      exists f chunks vectors,
        file_field fd = Some f /\
        chunkUpText env (extracted_text env f) = Ok chunks /\
        generateEmbedding env chunks = Ok vectors /\
        bulkInsertEmbeddings env chunks vectors (new_id env) (embeddings w)
        = (embeddings w', Ok tt)
  | Throw _ => True
  end.

(* ================================================================== *)
(** ** Sample worlds and environments *)
(* ================================================================== *)

Module Sample.

Definition no_fault : Call -> option Thrown := fun _ => None.

(** One chunk per 4 characters, one three-component vector per chunk,
    one row per pair. *)
Fixpoint chunks_of_text (fuel : nat) (s : string) : list string :=
  match fuel with
  | O => []
  | S fuel' =>
      match s with
      | EmptyString => []
      | _ => substring 0 4 s
             :: chunks_of_text fuel' (substring 4 (String.length s - 4) s)
      end
  end.

Definition chunker (s : string) : Result (list string) :=
  Ok (chunks_of_text (String.length s) s).

Definition embedder (l : list string) : Result (list Vector) :=
  Ok (map (fun _ => [0.5; 0.25; 1]%float) l).

Definition failing_embedder (l : list string) : Result (list Vector) :=
  Throw (Error "model not found").

(** The insertion refuses, whole, chunks and vectors that do not pair up. *)
Definition bulk_insert (chunks : list string) (vectors : list Vector)
           (docId : Z) (es : list Embedding) : list Embedding * Result unit :=
  if (length chunks =? length vectors)%nat
  then ((es ++ map (fun cv => mkEmbedding (fst cv) (snd cv) docId)
                   (combine chunks vectors))%list, Ok tt)
  else (es, Throw (Error "chunks and embeddings differ in length")).

Definition env_with (fault : Call -> option Thrown) (save : bool)
           (embed : list string -> Result (list Vector)) : Env :=
  mkEnv fault 7 1700000000 save "/srv/app"
        (fun a b => match b with
                    | String "/" b' => a ++ "/" ++ b'
                    | _ => a ++ "/" ++ b
                    end)
        (fun f => string_of_list_byte (file_bytes f))
        (fun _ => "pdf text") (fun _ => "docx text")
        chunker embed bulk_insert.

Definition env_ok : Env := env_with no_fault false embedder.

Definition db_down : Call -> option Thrown :=
  fun c => match c with
           | DbSelectDocumentByName => Some (Error "connect ECONNREFUSED")
           | _ => None
           end.

Definition disk_full : Call -> option Thrown :=
  fun c => match c with
           | FsWriteFile => Some (Error "ENOSPC: no space left on device")
           | _ => None
           end.

(** The database is unreachable. *)
Definition env_db_down : Env := env_with db_down false embedder.

(** Raw files are saved and the disk is full. *)
Definition env_disk_full : Env := env_with disk_full true embedder.

(** The embedding model is missing. *)
Definition env_no_model : Env := env_with no_fault false failing_embedder.

Definition empty_world : World := mkWorld [] [] [] [] [] [].

Definition notes_txt : File :=
  mkFile "notes.txt" 11 (list_byte_of_string "hello world").

Definition notes_upper : File :=
  mkFile "NOTES.TXT" 11 (list_byte_of_string "hello world").

Definition report_exe : File := mkFile "report.exe" 2 (list_byte_of_string "MZ").

Definition form_of (f : File) : FormData := mkFormData [] (Some f).

(** A store that already holds [notes.txt] with one chunk. *)
Definition world_with_notes : World :=
  mkWorld [] []
          [mkDocument 3 "notes.txt" 11 ".txt" 1600000000]
          [mkEmbedding "hell" [0.5; 0.25; 1]%float 3]
          [] [].

(** A store that holds another document, [report.pdf], with one chunk. *)
Definition world_with_report : World :=
  mkWorld [] []
          [mkDocument 3 "report.pdf" 2048 ".pdf" 1600000000]
          [mkEmbedding "pdf " [0.5; 0.25; 1]%float 3]
          [] [].

(** Two calls of [updateSettings]: the first meets a database that
    fails its insert, the second completes. *)
Definition two_updates : list (Env * FormData) :=
  [(env_with (fun c => match c with
                       | DbInsertSettings => Some (Error "connection lost")
                       | _ => None
                       end) false embedder,
    mkFormData [("username", "ann")] None);
   (env_ok, mkFormData [("username", "bob"); ("system", "be brief")] None)].

Definition form_carol : FormData := mkFormData [("username", "carol")] None.

(** Three documents, stored in the order 1, 2, 3; 2 is the newest. *)
Definition world_three_documents : World :=
  mkWorld [] []
          [mkDocument 1 "a.txt" 10 ".txt" 100;
           mkDocument 2 "b.pdf" 20 ".pdf" 300;
           mkDocument 3 "c.docx" 30 ".docx" 200]
          [] [] [].

(** A form with a blank title, and one within the limits. *)
Definition form_blank_title : FormData :=
  mkFormData [("prompt", "Summarise the text"); ("title", "")] None.

Definition form_summary : FormData :=
  mkFormData [("title", "Summary"); ("prompt", "Summarise the text")] None.

(** A store with two prompts. *)
Definition world_two_prompts : World :=
  mkWorld [mkPrompt 1 "Translate" "Translate to French";
           mkPrompt 2 "Explain" "Explain like I am five"]
          [] [] [] [] [].

(** A store with one settings row. *)
Definition world_with_settings : World :=
  mkWorld [] [mkSettings (Some "ann") (Some "be kind")] [] [] [] [].

(** The settings insert fails. *)
Definition env_insert_settings_fails : Env :=
  env_with (fun c => match c with
                     | DbInsertSettings => Some (Error "connection lost")
                     | _ => None
                     end) false embedder.

(** The revalidation fails. *)
Definition env_revalidate_fails : Env :=
  env_with (fun c => match c with
                     | RevalidatePath _ => Some (Error "static generation store missing")
                     | _ => None
                     end) false embedder.

(** Raw files are saved. *)
Definition env_save : Env := env_with no_fault true embedder.

Definition form_settings : FormData :=
  mkFormData [("username", "bob"); ("system", "be brief")] None.

Definition form_no_file : FormData := mkFormData [("file", "notes.txt")] None.

End Sample.

(* ================================================================== *)
(** ** Properties *)
(* ================================================================== *)

Lemma append_assoc (a b c : string) : (a ++ b) ++ c = a ++ (b ++ c).
Proof. induction a as [|x a IH]; simpl; [reflexivity|now rewrite IH]. Qed.

Lemma split_not_nil (sep : ascii) (s : string) : split sep s <> [].
Proof.
  destruct s as [|c rest]; simpl; [discriminate|].
  destruct (Ascii.eqb c sep); [discriminate|].
  destruct (split sep rest); discriminate.
Qed.

(** Joining the segments gives the string back. *)
Lemma join_split (sep : ascii) (s : string) : join sep (split sep s) = s.
Proof.
  induction s as [|c rest IH]; simpl; [reflexivity|].
  destruct (Ascii.eqb c sep) eqn:E.
  - apply Ascii.eqb_eq in E; subst c.
    destruct (split sep rest) as [|seg segs] eqn:S.
    + exfalso; exact (split_not_nil sep rest S).
    + simpl in *. now rewrite IH.
  - destruct (split sep rest) as [|seg segs] eqn:S.
    + exfalso; exact (split_not_nil sep rest S).
    + destruct segs; simpl in *; now rewrite <- IH.
Qed.

(** No segment holds the separator. *)
Lemma split_no_sep (sep : ascii) (s : string) :
  Forall (fun seg => contains_char sep seg = false) (split sep s).
Proof.
  induction s as [|c rest IH]; simpl.
  - constructor; [reflexivity|constructor].
  - destruct (Ascii.eqb c sep) eqn:E.
    + constructor; [reflexivity|assumption].
    + destruct (split sep rest) as [|seg segs].
      * constructor; [simpl; now rewrite E|constructor].
      * inversion IH; subst. constructor; [simpl; now rewrite E|assumption].
Qed.

Lemma pop_app_last (A : Type) (l : list A) (x : A) : pop (l ++ [x]) = Some x.
Proof.
  induction l as [|a l IH]; simpl; [reflexivity|].
  destruct (l ++ [x])%list eqn:E; [destruct l; discriminate|exact IH].
Qed.

Lemma pop_Some_inv (A : Type) (l : list A) (x : A) :
  pop l = Some x -> exists l', l = (l' ++ [x])%list.
Proof.
  induction l as [|a l IH]; simpl; [discriminate|].
  destruct l as [|b l].
  - intros [= ->]. now exists [].
  - intros H. destruct (IH H) as [l' ->]. now exists (a :: l').
Qed.

Lemma pop_not_nil (A : Type) (l : list A) : l <> [] -> exists x, pop l = Some x.
Proof.
  intros H. destruct (exists_last H) as [l' [x ->]].
  exists x. apply pop_app_last.
Qed.

Lemma join_app_last (sep : ascii) (l : list string) (x : string) :
  l <> [] -> join sep (l ++ [x])%list = join sep l ++ String sep x.
Proof.
  induction l as [|a l IH]; [congruence|]. intros _.
  destruct l as [|b l].
  - reflexivity.
  - change (join sep ((a :: b :: l) ++ [x])%list)
      with (a ++ String sep (join sep ((b :: l) ++ [x])%list)).
    rewrite IH by discriminate.
    change (join sep (a :: b :: l)) with (a ++ String sep (join sep (b :: l))).
    rewrite append_assoc. reflexivity.
Qed.

(** The last segment of a name: free of the separator, and either the
    whole name or what follows its last separator. *)
Lemma pop_split (sep : ascii) (s : string) :
  exists seg,
    pop (split sep s) = Some seg /\
    contains_char sep seg = false /\
    ((contains_char sep s = false /\ s = seg) \/
     exists before, s = before ++ String sep seg).
Proof.
  destruct (pop_not_nil (split_not_nil sep s)) as [seg Hpop].
  exists seg. split; [assumption|].
  destruct (pop_Some_inv _ Hpop) as [l' Hl'].
  pose proof (split_no_sep sep s) as Hno. rewrite Hl' in Hno.
  apply Forall_app in Hno as [_ Hseg]. inversion Hseg; subst.
  split; [assumption|].
  pose proof (join_split sep s) as Hj. rewrite Hl' in Hj.
  destruct l' as [|a l'].
  - left. simpl in Hj. subst s. now split.
  - right. rewrite join_app_last in Hj by discriminate.
    eexists. symmetry. exact Hj.
Qed.

Lemma substring_0_length (m : nat) (s : string) :
  String.length (substring 0 m s) = Nat.min m (String.length s).
Proof.
  revert s; induction m as [|m IH]; intros [|c s]; simpl; try reflexivity.
  now rewrite IH.
Qed.

Lemma substring_0_prefix (m : nat) (s : string) :
  exists rest, s = substring 0 m s ++ rest.
Proof.
  revert s; induction m as [|m IH]; intros [|c s]; simpl.
  - now exists "".
  - now exists (String c s).
  - now exists "".
  - destruct (IH s) as [rest Hr]. exists rest. now rewrite <- Hr.
Qed.

Lemma substring_0_all (m : nat) (s : string) :
  (String.length s <= m)%nat -> substring 0 m s = s.
Proof.
  revert s; induction m as [|m IH]; intros [|c s]; simpl; intros H;
    try reflexivity; try lia.
  now rewrite IH by lia.
Qed.

(** [s.slice(0, n)] for [n >= 0] is the prefix of [s] of length
    [min n s.length]. *)
Lemma slice_0_substring (n : Z) (s : string) :
  0 <= n ->
  slice 0 n s = substring 0 (Nat.min (Z.to_nat n) (String.length s)) s.
Proof.
  intros Hn. unfold slice, clamp_index.
  replace (0 <? 0) with false by reflexivity.
  destruct (n <? 0) eqn:E; [apply Z.ltb_lt in E; lia|].
  rewrite Z.min_l by lia.
  replace (Z.to_nat 0) with 0%nat by reflexivity.
  f_equal. lia.
Qed.

Lemma slice_0_length (n : Z) (s : string) :
  0 <= n -> Z.of_nat (String.length (slice 0 n s)) = Z.min n (Z.of_nat (String.length s)).
Proof.
  intros Hn. rewrite slice_0_substring by assumption.
  rewrite substring_0_length. lia.
Qed.

Lemma slice_0_prefix (n : Z) (s : string) :
  0 <= n -> exists rest, s = slice 0 n s ++ rest.
Proof.
  intros Hn. rewrite slice_0_substring by assumption. apply substring_0_prefix.
Qed.

Lemma slice_0_short (n : Z) (s : string) :
  Z.of_nat (String.length s) <= n -> slice 0 n s = s.
Proof.
  intros H. rewrite slice_0_substring by lia.
  apply substring_0_all. lia.
Qed.

(* ------------------------------------------------------------------ *)
(** *** Stepping through an action *)

Lemma documents_named_add_log (n : string) (c : Call) (w : World) :
  documents_named n (add_log c w) = documents_named n w.
Proof. reflexivity. Qed.

(** Unfold the combinators of [Action]. *)
Ltac unfold_action :=
  unfold revalidatePath in *;
  unfold try_catch, bind, ret, throw_error, throw, query, command, call,
    console_error in *.

(* ------------------------------------------------------------------ *)
(** *** [uploadFile]: validation *)

Lemma includes_accepted (ext : string) :
  includes accepted_extensions ext = true ->
  ext = ".txt" \/ ext = ".pdf" \/ ext = ".docx".
Proof.
  unfold accepted_extensions; cbn [includes].
  destruct (String.eqb_spec ".txt" ext); [auto|].
  destruct (String.eqb_spec ".pdf" ext); [auto|].
  destruct (String.eqb_spec ".docx" ext); [auto|intros; discriminate].
Qed.

(** A file whose dispatch key is not accepted is turned away with
    nothing done. *)
Lemma uploadFile_invalid (env : Env) (fd : FormData) (f : File) (w : World) :
  file_field fd = Some f ->
  includes accepted_extensions (fileExtension (file_name f)) = false ->
  uploadFile env fd w = (w, Throw (Error "Invalid file type")).
Proof.
  intros Hf Hext. unfold uploadFile, try_catch. rewrite Hf, Hext. reflexivity.
Qed.

Lemma documents_named_In (d : Document) (w : World) :
  In d (documents w) -> In d (documents_named (name d) w).
Proof.
  intros H. unfold documents_named. apply filter_In. split; [assumption|].
  apply String.eqb_refl.
Qed.

(** C2.  A file whose extension is not [.txt], [.pdf] or [.docx] makes
    [uploadFile] throw "Invalid file type" and leaves the world as it
    was: no Document row, nothing on disk, no chunk, and no external call
    at all (the log is unchanged). *)
Theorem uploadFile_rejects_invalid_type
        (env : Env) (fd : FormData) (f : File) (w : World) :
  file_field fd = Some f ->
  includes accepted_extensions (fileExtension (file_name f)) = false ->
  exists w',
    uploadFile env fd w = (w', Throw (Error "Invalid file type")) /\
    documents w' = documents w /\
    embeddings w' = embeddings w /\
    disk w' = disk w /\
    log w' = log w.
Proof.
  intros Hf Hext. exists w.
  rewrite (uploadFile_invalid env fd w Hf Hext). repeat split.
Qed.

Lemma uploadFile_rejects_invalid_type_witness :
  exists w',
    uploadFile Sample.env_ok (Sample.form_of Sample.report_exe)
               Sample.world_with_notes
    = (w', Throw (Error "Invalid file type")) /\
    documents w' = documents Sample.world_with_notes /\
    embeddings w' = embeddings Sample.world_with_notes /\
    disk w' = disk Sample.world_with_notes /\
    log w' = log Sample.world_with_notes.
Proof.
  apply (@uploadFile_rejects_invalid_type Sample.env_ok
           (Sample.form_of Sample.report_exe) Sample.report_exe
           Sample.world_with_notes); reflexivity.
Defined.

(** C1.  In a store whose documents were stored by [uploadFile], a file
    named as a stored document makes [uploadFile] throw "This document
    already exists" once the lookup has answered; the lookup is the only
    external call made, and documents, chunks and disk are unchanged. *)
Theorem uploadFile_rejects_duplicate
        (env : Env) (fd : FormData) (f : File) (d : Document) (w : World) :
  documents_wf w ->
  file_field fd = Some f ->
  In d (documents w) ->
  name d = file_name f ->
  fault env DbSelectDocumentByName = None ->
  exists w',
    uploadFile env fd w = (w', Throw (Error "This document already exists")) /\
    documents w' = documents w /\
    embeddings w' = embeddings w /\
    disk w' = disk w /\
    log w' = (log w ++ [DbSelectDocumentByName])%list.
Proof.
  intros Hwf Hf Hin Hname Hsel.
  assert (Hext : includes accepted_extensions (fileExtension (file_name f)) = true).
  { unfold documents_wf in Hwf. rewrite Forall_forall in Hwf.
    destruct (Hwf d Hin) as [E A]. rewrite <- Hname. rewrite <- E. exact A. }
  apply documents_named_In in Hin. rewrite Hname in Hin.
  exists (add_log DbSelectDocumentByName w).
  unfold uploadFile. unfold_action. rewrite Hf, Hext, Hsel. cbn [negb].
  rewrite documents_named_add_log.
  destruct (documents_named (file_name f) w) as [|d0 ds]; [contradiction|].
  repeat split.
Qed.

Lemma uploadFile_rejects_duplicate_witness :
  exists w',
    uploadFile Sample.env_ok (Sample.form_of Sample.notes_txt)
               Sample.world_with_notes
    = (w', Throw (Error "This document already exists")) /\
    documents w' = documents Sample.world_with_notes /\
    embeddings w' = embeddings Sample.world_with_notes /\
    disk w' = disk Sample.world_with_notes /\
    log w' = (log Sample.world_with_notes ++ [DbSelectDocumentByName])%list.
Proof.
  apply (@uploadFile_rejects_duplicate Sample.env_ok
           (Sample.form_of Sample.notes_txt) Sample.notes_txt
           (mkDocument 3 "notes.txt" 11 ".txt" 1600000000)
           Sample.world_with_notes).
  - repeat constructor.
  - reflexivity.
  - simpl; auto.
  - reflexivity.
  - reflexivity.
Defined.

(* ------------------------------------------------------------------ *)
(** *** [uploadFile]: the steps after the Document row *)

(** The raw-file block either completes, or throws its own message after
    a failed [mkdir] or [writeFile]; it touches no table. *)
Lemma save_raw_file_cases (env : Env) (fileName : string)
      (buf : list Byte.byte) (w : World) :
  match save_raw_file env fileName buf w with
  | (w', Ok _) =>
      local_write_fails env = false /\
      documents w' = documents w /\ embeddings w' = embeddings w
  | (w', Throw t) =>
      t = Error "Error writing file locally" /\
      local_write_fails env = true /\
      documents w' = documents w /\ embeddings w' = embeddings w
  end.
Proof.
  unfold save_raw_file, local_write_fails. unfold_action.
  destruct (SAVE_RAW_DOCUMENT_LOCAL env); cbn [andb]; [|repeat split].
  destruct (fault env FsMkdir) as [t1|]; [repeat split|].
  destruct (fault env FsWriteFile) as [t2|]; repeat split.
Qed.

(** The parser of an accepted dispatch key either returns a text or
    throws; it changes nothing but the log. *)
Lemma extract_text_cases (env : Env) (f : File) (buf : list Byte.byte)
      (ext : string) (w : World) :
  includes accepted_extensions ext = true ->
  match extract_text env f buf ext w with
  | (w', Ok _) => extractor_completes env ext
  | (w', Throw _) => True
  end /\
  documents (fst (extract_text env f buf ext w)) = documents w /\
  embeddings (fst (extract_text env f buf ext w)) = embeddings w.
Proof.
  intros Hext. unfold extract_text, extractor_completes. unfold_action.
  destruct (includes_accepted _ Hext) as [ -> | [ -> | -> ] ];
    cbn [String.eqb Ascii.eqb Bool.eqb];
    match goal with
    | |- context [fault env ?c] => destruct (fault env c) as [t|] eqn:F
    end; cbn [fst];
    repeat split; intros; try discriminate; assumption.
Qed.

(** Chunking, embedding and insertion: the embeddings table changes only
    through [bulkInsertEmbeddings]. *)
Lemma chunk_embed_insert_cases (env : Env) (text : string) (d : Document)
      (w : World) :
  match chunk_embed_insert env text (Some d) w with
  | (w', Ok _) =>
      exists chunks vectors,
        chunkUpText env text = Ok chunks /\
        generateEmbedding env chunks = Ok vectors /\
        bulkInsertEmbeddings env chunks vectors (id d) (embeddings w)
        = (embeddings w', Ok tt)
  | (w', Throw _) => bulk_insert_atomic env -> embeddings w' = embeddings w
  end /\
  documents (fst (chunk_embed_insert env text (Some d) w)) = documents w.
Proof.
  unfold chunk_embed_insert. unfold_action.
  destruct (chunkUpText env text) as [chunks|t] eqn:Hc; [|cbn; auto].
  destruct (generateEmbedding env chunks) as [vectors|t] eqn:Hg; [|cbn; auto].
  cbn [embeddings add_log].
  destruct (bulkInsertEmbeddings env chunks vectors (id d) (embeddings w))
    as [es [ [] | t ] ] eqn:Hb; cbn.
  - split; [|reflexivity]. exists chunks, vectors. auto.
  - split; [|reflexivity]. intros Hat. exact (Hat _ _ _ _ _ _ Hb).
Qed.

(** The inner [try] of [uploadFile] either runs the whole pipeline, or
    throws "Error embedding document"; only [bulkInsertEmbeddings] can
    have touched the embeddings table. *)
Lemma extract_and_embed_cases (env : Env) (f : File) (buf : list Byte.byte)
      (ext : string) (d : Document) (w : World) :
  includes accepted_extensions ext = true ->
  match extract_and_embed env f buf ext (Some d) w with
  | (w', Ok _) =>
      pipeline_completes env ext (id d) (embeddings w) (embeddings w') /\
      documents w' = documents w
  | (w', Throw t) =>
      t = Error "Error embedding document" /\
      documents w' = documents w /\
      (bulk_insert_atomic env -> embeddings w' = embeddings w)
  end.
Proof.
  intros Hext. unfold extract_and_embed, pipeline_completes.
  unfold try_catch, bind at 1.
  destruct (@extract_text_cases env f buf ext w Hext) as (Hx & Hd1 & He1).
  destruct (extract_text env f buf ext w) as [w1 [text|t1]]; cbn [fst] in *.
  - destruct (chunk_embed_insert_cases env text d w1) as (Hc & Hd2).
    destruct (chunk_embed_insert env text (Some d) w1) as [w2 [ [] | t2 ] ];
      cbn [fst] in *.
    + destruct Hc as (chunks & vectors & Hc & Hg & Hb).
      split; [|congruence]. split; [exact Hx|].
      exists text, chunks, vectors. rewrite <- He1. auto.
    + unfold_action. cbn. repeat split; try congruence.
      intros Hat. rewrite (Hc Hat). exact He1.
  - unfold_action. cbn. repeat split; try congruence.
Qed.

(** Once the Document row is inserted and the buffer read, [uploadFile]
    completes exactly when the raw-file block and the pipeline complete;
    otherwise it throws the message of the block that failed and the row
    stays. *)
Lemma uploadFile_after_insert (env : Env) (fd : FormData) (f : File) (w : World) :
  file_field fd = Some f ->
  includes accepted_extensions (fileExtension (file_name f)) = true ->
  fault env DbSelectDocumentByName = None ->
  documents_named (file_name f) w = [] ->
  fault env DbInsertDocument = None ->
  fault env FileArrayBuffer = None ->
  match uploadFile env fd w with
  | (w', Ok _) =>
      local_write_fails env = false /\
      pipeline_completes env (fileExtension (file_name f)) (new_id env)
                         (embeddings w) (embeddings w') /\
      documents w' = (documents w ++ [document_row env f])%list
  | (w', Throw t) =>
      t = Error (if local_write_fails env then "Error writing file locally"
                 else "Error embedding document") /\
      documents w' = (documents w ++ [document_row env f])%list /\
      (bulk_insert_atomic env -> embeddings w' = embeddings w)
  end.
Proof.
  intros Hf Hext Hsel Hnone Hins Hbuf.
  unfold uploadFile. unfold_action. rewrite Hf, Hext, Hsel. cbn [negb].
  rewrite documents_named_add_log, Hnone. cbn [hd_error].
  rewrite Hins, Hbuf. cbn [hd_error].
  match goal with
  | |- context [save_raw_file env ?n ?b ?W] =>
      pose proof (save_raw_file_cases env n b W) as Hs;
      destruct (save_raw_file env n b W) as [w1 [ [] | t1 ] ]
  end.
  - destruct Hs as (Hlw & Hd1 & He1). cbn in Hd1, He1.
    pose proof (@extract_and_embed_cases env f (file_bytes f) _
                  (document_row env f) w1 Hext) as Hx.
    destruct (extract_and_embed env f (file_bytes f)
                (fileExtension (file_name f)) (Some (document_row env f)) w1)
      as [w2 [ [] | t2 ] ].
    + destruct Hx as (Hp & Hd2). rewrite Hlw.
      split; [reflexivity|]. split; [|congruence].
      rewrite <- He1. exact Hp.
    + destruct Hx as (-> & Hd2 & He2). rewrite Hlw. cbn.
      split; [reflexivity|]. split; [congruence|].
      intros Hat. rewrite (He2 Hat). exact He1.
  - destruct Hs as (-> & Hlw & Hd1 & He1). cbn in Hd1, He1. rewrite Hlw. cbn.
    repeat split; auto.
Qed.

(** Every completion of [uploadFile]: a Document row was inserted, or an
    [Error] is thrown whose message is one of the action's own or comes
    from a call outside the inner [try] blocks; the Document table gains
    at most the row of the accepted file. *)
Lemma uploadFile_cases (env : Env) (fd : FormData) (w : World) :
  match uploadFile env fd w with
  | (w', Ok _) => document_created env fd w w'
  | (w', Throw t) =>
      (exists message,
         t = Error message /\
         (In message upload_messages \/
          exists c, In c upload_bare_calls /\ surfaced_from env c message)) /\
      (documents w' = documents w \/ document_created env fd w w')
  end.
Proof.
  destruct (file_field fd) as [f|] eqn:Hf.
  2:{ unfold uploadFile, try_catch. rewrite Hf. cbn.
      split; [|now left]. eexists; split; [reflexivity|]. left. simpl; auto. }
  destruct (includes accepted_extensions (fileExtension (file_name f))) eqn:Hext.
  2:{ rewrite (uploadFile_invalid env fd w Hf Hext).
      split; [|now left]. eexists; split; [reflexivity|]. left. simpl; auto. }
  destruct (fault env DbSelectDocumentByName) as [t|] eqn:Hsel.
  { unfold uploadFile. unfold_action. rewrite Hf, Hext, Hsel. cbn [negb].
    destruct t as [m|]; cbn; (split; [|now left]);
      eexists; (split; [reflexivity|]); right;
      exists DbSelectDocumentByName; (split; [simpl; auto|]);
      unfold surfaced_from; auto. }
  destruct (documents_named (file_name f) w) as [|d0 ds] eqn:Hnone.
  2:{ unfold uploadFile. unfold_action. rewrite Hf, Hext, Hsel. cbn [negb].
      rewrite documents_named_add_log, Hnone. cbn.
      split; [|now left]. eexists; split; [reflexivity|]. left. simpl; auto. }
  destruct (fault env DbInsertDocument) as [t|] eqn:Hins.
  { unfold uploadFile. unfold_action. rewrite Hf, Hext, Hsel. cbn [negb].
    rewrite documents_named_add_log, Hnone. cbn [hd_error]. rewrite Hins.
    destruct t as [m|]; cbn; (split; [|now left]);
      eexists; (split; [reflexivity|]); right;
      exists DbInsertDocument; (split; [simpl; auto|]);
      unfold surfaced_from; auto. }
  assert (Hrow : forall w', documents w' = (documents w ++ [document_row env f])%list ->
                            document_created env fd w w').
  { intros w' Hd. exists f. auto. }
  destruct (fault env FileArrayBuffer) as [t|] eqn:Hbuf.
  { unfold uploadFile. unfold_action. rewrite Hf, Hext, Hsel. cbn [negb].
    rewrite documents_named_add_log, Hnone. cbn [hd_error]. rewrite Hins, Hbuf.
    destruct t as [m|]; cbn; (split; [|right; now apply Hrow]);
      eexists; (split; [reflexivity|]); right;
      exists FileArrayBuffer; (split; [simpl; auto|]);
      unfold surfaced_from; auto. }
  pose proof (uploadFile_after_insert env fd w Hf Hext Hsel Hnone Hins Hbuf) as H.
  destruct (uploadFile env fd w) as [w' [ [] | t ] ].
  - apply Hrow, H.
  - destruct H as (-> & Hd & _). split; [|right; now apply Hrow].
    eexists; split; [reflexivity|]. left.
    destruct (local_write_fails env); simpl; auto 10.
Qed.

(** [uploadFile] keeps the Document table as [uploadFile] stores it. *)
Lemma uploadFile_preserves_documents_wf (env : Env) (fd : FormData) (w : World) :
  documents_wf w -> documents_wf (fst (uploadFile env fd w)).
Proof.
  intros Hwf. pose proof (uploadFile_cases env fd w) as H.
  assert (Hc : forall w', document_created env fd w w' -> documents_wf w').
  { intros w' (f & _ & Hext & Hd). unfold documents_wf. rewrite Hd.
    apply Forall_app. split; [exact Hwf|].
    constructor; [|constructor]. split; [reflexivity|exact Hext]. }
  destruct (uploadFile env fd w) as [w' [ [] | t ] ]; cbn [fst].
  - now apply Hc.
  - destruct H as (_ & [Hd|Hd]); [|now apply Hc].
    unfold documents_wf. now rewrite Hd.
Qed.

Lemma sample_bulk_insert_atomic (fault : Call -> option Thrown) (save : bool)
      (embed : list string -> Result (list Vector)) :
  bulk_insert_atomic (Sample.env_with fault save embed).
Proof.
  intros chunks vectors docId es es' t H. cbn in H.
  unfold Sample.bulk_insert in H.
  destruct (length chunks =? length vectors)%nat; inversion H; reflexivity.
Qed.

Lemma no_chunks_of_fresh_id (es : list Embedding) (docId : Z) :
  (forall e, In e es -> documentId e <> docId) ->
  filter (fun e => documentId e =? docId) es = [].
Proof.
  induction es as [|e es IH]; intros Hfresh; [reflexivity|].
  cbn [filter].
  destruct (documentId e =? docId) eqn:E.
  - apply Z.eqb_eq in E. exfalso. apply (Hfresh e); [now left|exact E].
  - apply IH. intros e' Hin. apply Hfresh. now right.
Qed.

(** C3.  When the Document row has been created (accepted extension, no
    document of that name, lookup, insert and buffer read completed) and
    [bulkInsertEmbeddings] is all or nothing, [uploadFile] completes only
    if the raw-file block and parsing, chunking, embedding and insertion
    all completed; when one of them fails it throws "Error writing file
    locally" for the raw-file block and "Error embedding document" for
    the others, and the Document row stays in the store, the embeddings
    table is as before and no chunk belongs to the new document. *)
Theorem uploadFile_failure_keeps_document
        (env : Env) (fd : FormData) (f : File) (w w' : World) (r : Result unit) :
  bulk_insert_atomic env ->
  file_field fd = Some f ->
  includes accepted_extensions (fileExtension (file_name f)) = true ->
  fault env DbSelectDocumentByName = None ->
  documents_named (file_name f) w = [] ->
  fault env DbInsertDocument = None ->
  fault env FileArrayBuffer = None ->
  (forall e, In e (embeddings w) -> documentId e <> new_id env) ->
  uploadFile env fd w = (w', r) ->
  (r = Ok tt ->
   local_write_fails env = false /\
   pipeline_completes env (fileExtension (file_name f)) (new_id env)
                      (embeddings w) (embeddings w')) /\
  (forall t, r = Throw t ->
     t = Error (if local_write_fails env then "Error writing file locally"
                else "Error embedding document") /\
     documents w' = (documents w ++ [document_row env f])%list /\
     embeddings w' = embeddings w /\
     chunks_of (id (document_row env f)) w' = []).
Proof.
  intros Hat Hf Hext Hsel Hnone Hins Hbuf Hfresh Hrun.
  pose proof (uploadFile_after_insert env fd w Hf Hext Hsel Hnone Hins Hbuf) as H.
  rewrite Hrun in H. split.
  - intros ->. destruct H as (Hlw & Hp & _). now split.
  - intros t ->. destruct H as (Ht & Hd & He). specialize (He Hat).
    split; [exact Ht|]. split; [exact Hd|]. split; [exact He|].
    unfold chunks_of. rewrite He. cbn [id document_row].
    now apply no_chunks_of_fresh_id.
Qed.

Lemma uploadFile_failure_keeps_document_witness :
  Error "Error writing file locally"
  = Error (if local_write_fails Sample.env_disk_full
           then "Error writing file locally" else "Error embedding document") /\
  documents (fst (uploadFile Sample.env_disk_full
                             (Sample.form_of Sample.notes_txt)
                             Sample.world_with_report))
  = (documents Sample.world_with_report
       ++ [document_row Sample.env_disk_full Sample.notes_txt])%list /\
  embeddings (fst (uploadFile Sample.env_disk_full
                              (Sample.form_of Sample.notes_txt)
                              Sample.world_with_report))
  = embeddings Sample.world_with_report /\
  chunks_of (id (document_row Sample.env_disk_full Sample.notes_txt))
            (fst (uploadFile Sample.env_disk_full
                             (Sample.form_of Sample.notes_txt)
                             Sample.world_with_report)) = [].
Proof.
  apply (@uploadFile_failure_keeps_document Sample.env_disk_full
           (Sample.form_of Sample.notes_txt) Sample.notes_txt
           Sample.world_with_report
           (fst (uploadFile Sample.env_disk_full
                            (Sample.form_of Sample.notes_txt)
                            Sample.world_with_report))
           (snd (uploadFile Sample.env_disk_full
                            (Sample.form_of Sample.notes_txt)
                            Sample.world_with_report))).
  - apply sample_bulk_insert_atomic.
  - reflexivity.
  - reflexivity.
  - reflexivity.
  - reflexivity.
  - reflexivity.
  - reflexivity.
  - intros e [<-|[]]. cbn. discriminate.
  - reflexivity.
  - reflexivity.
Defined.

(* ------------------------------------------------------------------ *)
(** *** [uploadFile]: the failures it surfaces *)

(** C5, as stated, fails: with the database unreachable, the lookup of
    an accepted file throws the driver's error and [uploadFile] throws an
    [Error] with that message, which is none of the five messages of the
    action (missing file, invalid type, duplicate, local write,
    embedding). *)
Lemma uploadFile_surfaces_driver_error :
  uploadFile Sample.env_db_down (Sample.form_of Sample.notes_txt)
             Sample.empty_world
  = (add_log DbSelectDocumentByName Sample.empty_world,
     Throw (Error "connect ECONNREFUSED")) /\
  ~ In "connect ECONNREFUSED" upload_messages.
Proof.
  split; [reflexivity|].
  unfold upload_messages. simpl. intuition discriminate.
Qed.

(** C5, amended.  [uploadFile] either completes, having inserted the
    Document row of the accepted file (its name, size and dispatch key),
    or throws an [Error] whose message is one of the action's five
    ("No file provided", "Invalid file type", "This document already
    exists", "Error writing file locally", "Error embedding document"),
    or the message of the [Error] that the document lookup, the document
    insert or the buffer read threw, or "Error uploading file" when what
    one of these threw is not an [Error]. *)
Theorem uploadFile_outcomes (env : Env) (fd : FormData) (w : World) :
  match uploadFile env fd w with
  | (w', Ok _) =>
      exists f row,
        file_field fd = Some f /\
        documents w' = (documents w ++ [row])%list /\
        name row = file_name f /\
        size row = file_size f /\
        extension row = fileExtension (file_name f) /\
        In (extension row) accepted_extensions
  | (w', Throw t) =>
      exists message,
        t = Error message /\
        (In message upload_messages \/
         exists c, In c upload_bare_calls /\ surfaced_from env c message)
  end.
Proof.
  pose proof (uploadFile_cases env fd w) as H.
  destruct (uploadFile env fd w) as [w' [ [] | t ] ].
  - destruct H as (f & Hf & Hext & Hd).
    exists f, (document_row env f). repeat split; try assumption.
    cbn [extension document_row].
    destruct (includes_accepted _ Hext) as [ -> | [ -> | -> ] ]; simpl; auto.
  - exact (proj1 H).
Qed.

(* ------------------------------------------------------------------ *)
(** *** [uploadFile]: the dispatch key *)

Lemma accepted_is_lowercase (ext : string) :
  includes accepted_extensions ext = true ->
  is_lowercase ext = true /\ exists seg, ext = "." ++ seg.
Proof.
  intros H.
  destruct (includes_accepted _ H) as [ -> | [ -> | -> ] ];
    (split; [reflexivity|eexists; reflexivity]).
Qed.

(** C4, as stated, fails: the dispatch key of [NOTES.TXT] is [.TXT], not
    the lowercase [.txt]; the key keeps the case of the name, and the
    file is rejected. *)
Lemma dispatch_key_keeps_case :
  fileExtension (file_name Sample.notes_upper) = ".TXT" /\
  is_lowercase (fileExtension (file_name Sample.notes_upper)) = false /\
  toLowerCase (fileExtension (file_name Sample.notes_upper)) = ".txt" /\
  uploadFile Sample.env_ok (Sample.form_of Sample.notes_upper)
             Sample.empty_world
  = (Sample.empty_world, Throw (Error "Invalid file type")).
Proof. repeat split. Qed.

(** C4, amended.  For an uploaded file whose name holds a ['.'], the
    dispatch key is ['.'] followed by the part of the name after its last
    ['.'], in the case the name has it: nothing lowercases it.  A file
    whose key is none of [.txt], [.pdf], [.docx] is rejected with
    "Invalid file type" and nothing done, so that a key that is accepted
    is lowercase and starts with the dot. *)
Theorem dispatch_key_last_segment
        (env : Env) (fd : FormData) (f : File) (w : World) :
  file_field fd = Some f ->
  (contains_char "." (file_name f) = true ->
   exists before seg,
     file_name f = before ++ "." ++ seg /\
     contains_char "." seg = false /\
     fileExtension (file_name f) = "." ++ seg) /\
  (if includes accepted_extensions (fileExtension (file_name f))
   then is_lowercase (fileExtension (file_name f)) = true /\
        exists seg, fileExtension (file_name f) = "." ++ seg
   else uploadFile env fd w = (w, Throw (Error "Invalid file type"))).
Proof.
  intros Hf. split.
  - intros Hdot.
    destruct (pop_split "." (file_name f)) as (seg & Hpop & Hno & Hshape).
    destruct Hshape as [(Hnodot & _)|(before & Hname)]; [congruence|].
    exists before, seg. unfold fileExtension. rewrite Hpop. cbn [dot_plus].
    repeat split; assumption.
  - destruct (includes accepted_extensions (fileExtension (file_name f))) eqn:Hext.
    + apply (accepted_is_lowercase _ Hext).
    + apply (uploadFile_invalid env fd w Hf Hext).
Qed.

Lemma dispatch_key_last_segment_witness :
  (exists before seg,
     "archive.tar.PDF" = before ++ "." ++ seg /\
     contains_char "." seg = false /\
     fileExtension "archive.tar.PDF" = "." ++ seg) /\
  uploadFile Sample.env_ok
             (Sample.form_of (mkFile "archive.tar.PDF" 0 []))
             Sample.world_with_report
  = (Sample.world_with_report, Throw (Error "Invalid file type")).
Proof.
  destruct (@dispatch_key_last_segment Sample.env_ok
              (Sample.form_of (mkFile "archive.tar.PDF" 0 []))
              (mkFile "archive.tar.PDF" 0 []) Sample.world_with_report
              eq_refl) as [Hkey Hreject].
  split; [apply Hkey; reflexivity|exact Hreject].
Defined.

(* ------------------------------------------------------------------ *)
(** *** Prompts *)

(** C6.  Whenever [addNewPrompt] completes, the Prompts table has gained
    one row, whose title is the submitted title cut to its first 150
    characters and whose content is the submitted prompt cut to its
    first 1000 characters; when it throws, the table is unchanged or has
    gained that same row (the insert completed and the revalidation
    threw). *)
Theorem addNewPrompt_truncates (env : Env) (fd : FormData) (w : World) :
  match addNewPrompt env fd w with
  | (w', Ok _) => stored_truncated fd w w'
  | (w', Throw _) => prompts w' = prompts w \/ stored_truncated fd w w'
  end.
Proof.
  unfold addNewPrompt.
  destruct (get fd "prompt") as [p|] eqn:Hp; [|cbn; now left].
  destruct (get fd "title") as [t|] eqn:Ht;
    [|cbn [truthy negb]; rewrite orb_true_r; cbn; now left].
  destruct (negb (truthy (Some p)) || negb (truthy (Some t))); [cbn; now left|].
  assert (Hst : forall w', prompts w'
                           = (prompts w ++ [mkPrompt (new_id env) (slice 0 150 t)
                                                     (slice 0 1000 p)])%list ->
                           stored_truncated fd w w').
  { intros w' Hw'. exists t, p, (mkPrompt (new_id env) (slice 0 150 t) (slice 0 1000 p)).
    cbn [title content]. repeat split; try assumption.
    - pose proof (@slice_0_length 150 t ltac:(lia)). lia.
    - pose proof (@slice_0_length 1000 p ltac:(lia)). lia.
    - apply slice_0_prefix; lia.
    - apply slice_0_prefix; lia. }
  unfold_action.
  destruct (fault env DbInsertPrompt) as [e|]; [cbn; now left|].
  destruct (fault env (RevalidatePath "/prompts")) as [e|]; cbn.
  - right. now apply Hst.
  - now apply Hst.
Qed.

(* ------------------------------------------------------------------ *)
(** *** Settings *)

(** One call of [updateSettings]: when it completes the table is the
    single new row; when it throws the table is as before, or emptied by
    the delete, or already the single new row. *)
Lemma updateSettings_step (env : Env) (fd : FormData) (w : World) :
  match updateSettings env fd w with
  | (w', Ok _) => settings w' = [settings_row_of fd]
  | (w', Throw _) =>
      settings w' = settings w \/ settings w' = [] \/
      settings w' = [settings_row_of fd]
  end.
Proof.
  unfold updateSettings, settings_row_of. unfold_action.
  destruct (fault env DbSelectSettings) as [e|]; [cbn; now left|].
  cbn [settings add_log].
  destruct (settings w) as [|s0 ss] eqn:Hs; cbn [length Nat.eqb].
  - destruct (fault env DbInsertSettings) as [e|]; [cbn; now left|].
    cbn [settings add_log]. rewrite Hs.
    destruct (fault env (RevalidatePath "/settings")) as [e|]; cbn; auto.
  - destruct (fault env DbDeleteSettings) as [e|]; [cbn; now left|].
    destruct (fault env DbInsertSettings) as [e|]; [cbn; auto|].
    destruct (fault env (RevalidatePath "/settings")) as [e|]; cbn; auto.
Qed.

Lemma updateSettings_at_most_one (env : Env) (fd : FormData) (w : World) :
  (length (settings w) <= 1)%nat ->
  (length (settings (fst (updateSettings env fd w))) <= 1)%nat.
Proof.
  intros H. pose proof (updateSettings_step env fd w) as Hs.
  destruct (updateSettings env fd w) as [w' [ [] | t ] ]; cbn [fst].
  - rewrite Hs. simpl; lia.
  - destruct Hs as [ -> | [ -> | -> ] ]; simpl; lia.
Qed.

(** C7.  From a Settings table of at most one row, any sequence of
    [updateSettings] calls leaves at most one row, whatever the
    completion of each call; and a further call that completes leaves
    exactly one row, the row of its form: it replaces the row that was
    there and does not append. *)
Theorem updateSettings_single_row
        (calls : list (Env * FormData)) (env : Env) (fd : FormData) (w : World) :
  (length (settings w) <= 1)%nat ->
  (length (settings (updateSettings_all calls w)) <= 1)%nat /\
  match updateSettings env fd (updateSettings_all calls w) with
  | (w', Ok _) => settings w' = [settings_row_of fd] /\ length (settings w') = 1%nat
  | (w', Throw _) => (length (settings w') <= 1)%nat
  end.
Proof.
  intros H.
  assert (Hall : (length (settings (updateSettings_all calls w)) <= 1)%nat).
  { revert w H. induction calls as [|[env0 fd0] calls IH]; intros w H; cbn.
    - exact H.
    - apply IH. now apply updateSettings_at_most_one. }
  split; [exact Hall|].
  pose proof (updateSettings_step env fd (updateSettings_all calls w)) as Hs.
  pose proof (updateSettings_at_most_one env fd _ Hall) as Hone.
  destruct (updateSettings env fd (updateSettings_all calls w))
    as [w' [ [] | t ] ]; cbn [fst] in Hone.
  - split; [exact Hs|]. now rewrite Hs.
  - exact Hone.
Qed.

Lemma updateSettings_single_row_witness :
  (length (settings (updateSettings_all Sample.two_updates Sample.empty_world))
   <= 1)%nat /\
  settings (fst (updateSettings Sample.env_ok Sample.form_carol
                   (updateSettings_all Sample.two_updates Sample.empty_world)))
  = [mkSettings (Some "carol") None].
Proof.
  destruct (@updateSettings_single_row Sample.two_updates Sample.env_ok
              Sample.form_carol Sample.empty_world (Nat.le_0_l 1))
    as [Hmost Hone].
  split; [exact Hmost|exact (proj1 Hone)].
Defined.

(** C9.  On an empty Settings table, once the query has answered,
    [getAllSettings] returns [undefined] and throws nothing. *)
Theorem getAllSettings_empty_undefined (env : Env) (w : World) :
  settings w = [] ->
  fault env DbSelectSettings = None ->
  getAllSettings env w = (add_log DbSelectSettings w, Ok None).
Proof.
  intros Hs Hf. unfold getAllSettings. unfold_action. rewrite Hf.
  cbn [settings add_log]. rewrite Hs. reflexivity.
Qed.

Lemma getAllSettings_empty_undefined_witness :
  getAllSettings Sample.env_ok Sample.world_with_report
  = (add_log DbSelectSettings Sample.world_with_report, Ok None).
Proof.
  apply (@getAllSettings_empty_undefined Sample.env_ok Sample.world_with_report);
    reflexivity.
Defined.

(* ------------------------------------------------------------------ *)
(** *** Documents: the listing *)

Lemma insert_desc_perm (d : Document) (l : list Document) :
  Permutation (d :: l) (insert_desc d l).
Proof.
  induction l as [|x l IH]; cbn [insert_desc]; [apply Permutation_refl|].
  destruct (createdAt x <=? createdAt d); [apply Permutation_refl|].
  eapply perm_trans; [apply perm_swap|]. now apply perm_skip.
Qed.

Lemma insert_desc_sorted (d : Document) (l : list Document) :
  StronglySorted newer_or_equal l ->
  StronglySorted newer_or_equal (insert_desc d l).
Proof.
  induction l as [|x l IH]; intros Hs; cbn [insert_desc].
  - constructor; constructor.
  - inversion Hs as [|x' l' Hl Hx]; subst.
    destruct (createdAt x <=? createdAt d) eqn:E.
    + apply Z.leb_le in E. constructor; [exact Hs|].
      constructor; [exact E|].
      eapply Forall_impl; [|exact Hx].
      unfold newer_or_equal. intros y Hy. lia.
    + apply Z.leb_gt in E. constructor; [now apply IH|].
      eapply Permutation_Forall; [apply insert_desc_perm|].
      constructor; [unfold newer_or_equal; lia|exact Hx].
Qed.

Lemma orderBy_desc_createdAt_perm (l : list Document) :
  Permutation l (orderBy_desc_createdAt l).
Proof.
  induction l as [|d l IH]; cbn; [constructor|].
  eapply perm_trans; [apply perm_skip, IH|apply insert_desc_perm].
Qed.

Lemma orderBy_desc_createdAt_sorted (l : list Document) :
  StronglySorted newer_or_equal (orderBy_desc_createdAt l).
Proof.
  induction l as [|d l IH]; cbn; [constructor|now apply insert_desc_sorted].
Qed.

(** C10.  Once the query has answered, [getAllDocuments] returns the
    rows of the Documents table, all of them and no other, each as often
    as the table holds it, with no row before one created later than it;
    it changes no table. *)
Theorem getAllDocuments_newest_first (env : Env) (w : World) :
  fault env DbSelectDocuments = None ->
  exists docs,
    getAllDocuments env w = (add_log DbSelectDocuments w, Ok docs) /\
    Permutation (documents w) docs /\
    StronglySorted newer_or_equal docs.
Proof.
  intros Hf. exists (orderBy_desc_createdAt (documents w)).
  split; [|split].
  - unfold getAllDocuments. unfold_action. rewrite Hf. reflexivity.
  - apply orderBy_desc_createdAt_perm.
  - apply orderBy_desc_createdAt_sorted.
Qed.

Lemma getAllDocuments_newest_first_witness :
  exists docs,
    getAllDocuments Sample.env_ok Sample.world_three_documents
    = (add_log DbSelectDocuments Sample.world_three_documents, Ok docs) /\
    Permutation (documents Sample.world_three_documents) docs /\
    StronglySorted newer_or_equal docs.
Proof.
  apply (@getAllDocuments_newest_first Sample.env_ok Sample.world_three_documents).
  reflexivity.
Defined.

Example getAllDocuments_three :
  snd (getAllDocuments Sample.env_ok Sample.world_three_documents)
  = Ok [mkDocument 2 "b.pdf" 20 ".pdf" 300;
        mkDocument 3 "c.docx" 30 ".docx" 200;
        mkDocument 1 "a.txt" 10 ".txt" 100].
Proof. reflexivity. Qed.

(* ------------------------------------------------------------------ *)
(** *** What the actions throw *)

Lemma hd_error_firstn_1 (A : Type) (l : list A) :
  hd_error (firstn 1 l) = hd_error l.
Proof. destruct l; reflexivity. Qed.

(** C8, as stated, fails for [uploadFile]: three internal failures of
    the same call site surface as three different errors, and the first
    is the database driver's own message, not a message of the action. *)
Lemma uploadFile_errors_not_collapsed :
  snd (uploadFile Sample.env_db_down (Sample.form_of Sample.notes_txt)
                  Sample.empty_world)
  = Throw (Error "connect ECONNREFUSED") /\
  snd (uploadFile Sample.env_disk_full (Sample.form_of Sample.notes_txt)
                  Sample.empty_world)
  = Throw (Error "Error writing file locally") /\
  snd (uploadFile Sample.env_no_model (Sample.form_of Sample.notes_txt)
                  Sample.empty_world)
  = Throw (Error "Error embedding document").
Proof. repeat split. Qed.

(** C8, amended.  [getAllPrompts], [deletePrompt], [getAllSettings],
    [updateSettings] and [getAllDocuments] complete when none of the
    external calls they make throws, and otherwise throw one [Error]
    with the action's one fixed message, whatever was thrown inside.
    [addNewPrompt] does the same with "Error adding new prompt" once the
    form has passed its check, and throws "Invalid form data" for a
    missing or empty field.  [uploadFile] throws one [Error] too, but
    its message is not collapsed: it is one of the action's five
    messages, or the message of the [Error] thrown by the document
    lookup, the document insert or the buffer read, or "Error uploading
    file" when one of these threw a value that is not an [Error]. *)
Theorem actions_rethrow (env : Env) (fd : FormData) (pid : Z) (w : World) :
  snd (getAllPrompts env w)
  = (if faults env DbSelectPrompts
     then Throw (Error "Error fetching prompts") else Ok (prompts w)) /\
  snd (addNewPrompt env fd w)
  = (if negb (truthy (get fd "prompt")) || negb (truthy (get fd "title"))
     then Throw (Error "Invalid form data")
     else if faults env DbInsertPrompt || faults env (RevalidatePath "/prompts")
          then Throw (Error "Error adding new prompt") else Ok tt) /\
  snd (deletePrompt env pid w)
  = (if faults env DbDeletePrompt || faults env (RevalidatePath "/prompts")
     then Throw (Error "Error deleting prompt") else Ok tt) /\
  snd (getAllSettings env w)
  = (if faults env DbSelectSettings
     then Throw (Error "Error fetching settings")
     else Ok (hd_error (settings w))) /\
  snd (updateSettings env fd w)
  = (if updateSettings_faults env w
     then Throw (Error "Error updating settings") else Ok tt) /\
  snd (getAllDocuments env w)
  = (if faults env DbSelectDocuments
     then Throw (Error "Error fetching documents")
     else Ok (orderBy_desc_createdAt (documents w))) /\
  match snd (uploadFile env fd w) with
  | Ok _ => True
  | Throw t =>
      exists message,
        t = Error message /\
        (In message upload_messages \/
         exists c, In c upload_bare_calls /\ surfaced_from env c message)
  end.
Proof.
  unfold updateSettings_faults, faults.
  split; [|split; [|split; [|split; [|split; [|split]]]]].
  - unfold getAllPrompts. unfold_action.
    destruct (fault env DbSelectPrompts); reflexivity.
  - unfold addNewPrompt.
    destruct (get fd "prompt") as [p|]; [|reflexivity].
    destruct (get fd "title") as [t|];
      [|cbn [truthy negb]; rewrite orb_true_r; reflexivity].
    destruct (negb (truthy (Some p)) || negb (truthy (Some t))); [reflexivity|].
    unfold_action.
    destruct (fault env DbInsertPrompt); [reflexivity|].
    destruct (fault env (RevalidatePath "/prompts")); reflexivity.
  - unfold deletePrompt. unfold_action.
    destruct (fault env DbDeletePrompt); [reflexivity|].
    destruct (fault env (RevalidatePath "/prompts")); reflexivity.
  - unfold getAllSettings. unfold_action.
    destruct (fault env DbSelectSettings); [reflexivity|].
    cbn [snd settings add_log]. now rewrite hd_error_firstn_1.
  - unfold updateSettings. unfold_action.
    destruct (fault env DbSelectSettings); [reflexivity|].
    cbn [settings add_log orb].
    destruct (settings w) as [|s0 ss]; cbn [length Nat.eqb].
    + destruct (fault env DbInsertSettings); [reflexivity|].
      destruct (fault env (RevalidatePath "/settings")); reflexivity.
    + destruct (fault env DbDeleteSettings); [reflexivity|].
      destruct (fault env DbInsertSettings); [reflexivity|].
      destruct (fault env (RevalidatePath "/settings")); reflexivity.
  - unfold getAllDocuments. unfold_action.
    destruct (fault env DbSelectDocuments); reflexivity.
  - pose proof (uploadFile_cases env fd w) as H.
    destruct (uploadFile env fd w) as [w' [ [] | t ] ]; cbn [snd];
      [exact I|exact (proj1 H)].
Qed.

(* ================================================================== *)
(** ** Further properties of the actions *)
(* ================================================================== *)

(* ------------------------------------------------------------------ *)
(** *** Prompts: validation, storing, deleting *)

Lemma truthy_Some (s : string) : s <> "" -> truthy (Some s) = true.
Proof. destruct s; [congruence|reflexivity]. Qed.

(** What [addNewPrompt] does once the form has passed its check and the
    insert has completed. *)
Lemma addNewPrompt_inserted (env : Env) (fd : FormData) (t p : string) (w : World) :
  get fd "title" = Some t -> get fd "prompt" = Some p ->
  t <> "" -> p <> "" ->
  fault env DbInsertPrompt = None ->
  prompts (fst (addNewPrompt env fd w))
  = (prompts w ++ [mkPrompt (new_id env) (slice 0 150 t) (slice 0 1000 p)])%list /\
  snd (addNewPrompt env fd w)
  = match fault env (RevalidatePath "/prompts") with
    | None => Ok tt
    | Some _ => Throw (Error "Error adding new prompt")
    end.
Proof.
  intros Ht Hp Hts Hps Hins. unfold addNewPrompt. rewrite Ht, Hp.
  rewrite (truthy_Some Hts), (truthy_Some Hps). cbn [negb orb].
  unfold_action. rewrite Hins.
  destruct (fault env (RevalidatePath "/prompts")); split; reflexivity.
Qed.

(** X1.  A form whose [prompt] or [title] is missing or empty makes
    [addNewPrompt] throw "Invalid form data" with nothing done: no
    external call is made and no table changes. *)
Theorem addNewPrompt_rejects_blank (env : Env) (fd : FormData) (w : World) :
  truthy (get fd "prompt") = false \/ truthy (get fd "title") = false ->
  addNewPrompt env fd w = (w, Throw (Error "Invalid form data")).
Proof.
  intros H. unfold addNewPrompt.
  destruct H as [H|H]; rewrite H; cbn [negb orb]; [reflexivity|].
  rewrite orb_true_r. reflexivity.
Qed.

Lemma addNewPrompt_rejects_blank_witness :
  addNewPrompt Sample.env_ok Sample.form_blank_title Sample.world_two_prompts
  = (Sample.world_two_prompts, Throw (Error "Invalid form data")).
Proof.
  apply (@addNewPrompt_rejects_blank Sample.env_ok Sample.form_blank_title
           Sample.world_two_prompts).
  right. reflexivity.
Defined.

(** X2.  A title of at most 150 characters and a prompt of at most 1000
    are stored as submitted, in a new row at the end of the table. *)
Theorem addNewPrompt_keeps_short_fields
        (env : Env) (fd : FormData) (t p : string) (w : World) :
  get fd "title" = Some t -> get fd "prompt" = Some p ->
  t <> "" -> p <> "" ->
  (String.length t <= 150)%nat -> (String.length p <= 1000)%nat ->
  fault env DbInsertPrompt = None ->
  prompts (fst (addNewPrompt env fd w))
  = (prompts w ++ [mkPrompt (new_id env) t p])%list.
Proof.
  intros Ht Hp Hts Hps Hlt Hlp Hins.
  destruct (@addNewPrompt_inserted env fd t p w Ht Hp Hts Hps Hins) as [-> _].
  rewrite (@slice_0_short 150 t) by lia.
  rewrite (@slice_0_short 1000 p) by lia. reflexivity.
Qed.

Lemma addNewPrompt_keeps_short_fields_witness :
  prompts (fst (addNewPrompt Sample.env_ok Sample.form_summary
                             Sample.world_two_prompts))
  = (prompts Sample.world_two_prompts
       ++ [mkPrompt (new_id Sample.env_ok) "Summary" "Summarise the text"])%list.
Proof.
  apply (@addNewPrompt_keeps_short_fields Sample.env_ok Sample.form_summary
           "Summary" "Summarise the text" Sample.world_two_prompts);
    try reflexivity; try discriminate; simpl; lia.
Defined.

(** X3.  After [addNewPrompt] has inserted its row, [getAllPrompts]
    (its query completing) returns the rows that were there, in their
    order, followed by the new row. *)
Theorem addNewPrompt_then_getAllPrompts
        (env env' : Env) (fd : FormData) (t p : string) (w : World) :
  get fd "title" = Some t -> get fd "prompt" = Some p ->
  t <> "" -> p <> "" ->
  fault env DbInsertPrompt = None ->
  fault env' DbSelectPrompts = None ->
  snd (getAllPrompts env' (fst (addNewPrompt env fd w)))
  = Ok (prompts w ++ [mkPrompt (new_id env) (slice 0 150 t) (slice 0 1000 p)])%list.
Proof.
  intros Ht Hp Hts Hps Hins Hsel.
  destruct (@addNewPrompt_inserted env fd t p w Ht Hp Hts Hps Hins) as [Hrow _].
  unfold getAllPrompts. unfold_action. rewrite Hsel. cbn [snd prompts add_log].
  now rewrite Hrow.
Qed.

Lemma addNewPrompt_then_getAllPrompts_witness :
  snd (getAllPrompts Sample.env_ok
         (fst (addNewPrompt Sample.env_revalidate_fails Sample.form_summary
                            Sample.world_two_prompts)))
  = Ok (prompts Sample.world_two_prompts
          ++ [mkPrompt (new_id Sample.env_revalidate_fails)
                       (slice 0 150 "Summary")
                       (slice 0 1000 "Summarise the text")])%list.
Proof.
  apply (@addNewPrompt_then_getAllPrompts Sample.env_revalidate_fails
           Sample.env_ok Sample.form_summary "Summary" "Summarise the text"
           Sample.world_two_prompts);
    try reflexivity; discriminate.
Defined.

(** X4.  When the insert completes and the revalidation throws,
    [addNewPrompt] throws "Error adding new prompt" although the row is
    stored: nothing undoes the insert. *)
Theorem addNewPrompt_row_survives_failed_revalidation
        (env : Env) (fd : FormData) (t p : string) (e : Thrown) (w : World) :
  get fd "title" = Some t -> get fd "prompt" = Some p ->
  t <> "" -> p <> "" ->
  fault env DbInsertPrompt = None ->
  fault env (RevalidatePath "/prompts") = Some e ->
  snd (addNewPrompt env fd w) = Throw (Error "Error adding new prompt") /\
  prompts (fst (addNewPrompt env fd w))
  = (prompts w ++ [mkPrompt (new_id env) (slice 0 150 t) (slice 0 1000 p)])%list.
Proof.
  intros Ht Hp Hts Hps Hins Hrev.
  destruct (@addNewPrompt_inserted env fd t p w Ht Hp Hts Hps Hins) as [Hrow Hres].
  rewrite Hrev in Hres. split; assumption.
Qed.

Lemma addNewPrompt_row_survives_failed_revalidation_witness :
  snd (addNewPrompt Sample.env_revalidate_fails Sample.form_summary
                    Sample.world_two_prompts)
  = Throw (Error "Error adding new prompt") /\
  prompts (fst (addNewPrompt Sample.env_revalidate_fails Sample.form_summary
                             Sample.world_two_prompts))
  = (prompts Sample.world_two_prompts
       ++ [mkPrompt (new_id Sample.env_revalidate_fails)
                    (slice 0 150 "Summary")
                    (slice 0 1000 "Summarise the text")])%list.
Proof.
  apply (@addNewPrompt_row_survives_failed_revalidation
           Sample.env_revalidate_fails Sample.form_summary
           "Summary" "Summarise the text"
           (Error "static generation store missing")
           Sample.world_two_prompts);
    try reflexivity; discriminate.
Defined.

(** The table after a delete that completed. *)
Lemma deletePrompt_prompts (env : Env) (pid : Z) (w : World) :
  fault env DbDeletePrompt = None ->
  prompts (fst (deletePrompt env pid w))
  = filter (fun p => negb (prompt_id p =? pid)) (prompts w).
Proof.
  intros Hdel. unfold deletePrompt. unfold_action. rewrite Hdel.
  destruct (fault env (RevalidatePath "/prompts")); reflexivity.
Qed.

Lemma filter_other_ids (ps : list Prompt) (pid : Z) :
  (forall p, In p ps -> prompt_id p <> pid) ->
  filter (fun p => negb (prompt_id p =? pid)) ps = ps.
Proof.
  induction ps as [|q ps IH]; intros H; [reflexivity|].
  cbn [filter].
  destruct (prompt_id q =? pid) eqn:E.
  - apply Z.eqb_eq in E. exfalso. exact (H q (or_introl eq_refl) E).
  - cbn [negb]. f_equal. apply IH. intros p Hp. apply H. now right.
Qed.

(** X5.  Once the delete has completed, the Prompts table holds exactly
    the rows it held whose id is not the one given; this is so even when
    the revalidation that follows throws. *)
Theorem deletePrompt_removes (env : Env) (pid : Z) (w : World) (p : Prompt) :
  fault env DbDeletePrompt = None ->
  In p (prompts (fst (deletePrompt env pid w)))
  <-> In p (prompts w) /\ prompt_id p <> pid.
Proof.
  intros Hdel. rewrite (deletePrompt_prompts env pid w Hdel).
  rewrite filter_In. rewrite negb_true_iff, Z.eqb_neq. reflexivity.
Qed.

Lemma deletePrompt_removes_witness :
  In (mkPrompt 2 "Explain" "Explain like I am five")
     (prompts (fst (deletePrompt Sample.env_revalidate_fails 1
                                 Sample.world_two_prompts)))
  <-> In (mkPrompt 2 "Explain" "Explain like I am five")
         (prompts Sample.world_two_prompts) /\
      prompt_id (mkPrompt 2 "Explain" "Explain like I am five") <> 1.
Proof.
  apply (@deletePrompt_removes Sample.env_revalidate_fails 1
           Sample.world_two_prompts
           (mkPrompt 2 "Explain" "Explain like I am five")).
  reflexivity.
Defined.

(** X6.  Deleting an id that no prompt has is not an error: when the
    delete and the revalidation complete, [deletePrompt] returns and the
    table is as it was. *)
Theorem deletePrompt_absent_id (env : Env) (pid : Z) (w : World) :
  (forall p, In p (prompts w) -> prompt_id p <> pid) ->
  fault env DbDeletePrompt = None ->
  fault env (RevalidatePath "/prompts") = None ->
  snd (deletePrompt env pid w) = Ok tt /\
  prompts (fst (deletePrompt env pid w)) = prompts w.
Proof.
  intros Habs Hdel Hrev. split.
  - unfold deletePrompt. unfold_action. rewrite Hdel, Hrev. reflexivity.
  - rewrite (deletePrompt_prompts env pid w Hdel). now apply filter_other_ids.
Qed.

Lemma deletePrompt_absent_id_witness :
  snd (deletePrompt Sample.env_ok 9 Sample.world_two_prompts) = Ok tt /\
  prompts (fst (deletePrompt Sample.env_ok 9 Sample.world_two_prompts))
  = prompts Sample.world_two_prompts.
Proof.
  apply (@deletePrompt_absent_id Sample.env_ok 9 Sample.world_two_prompts).
  - intros p [<-|[<-|[]]]; cbn; discriminate.
  - reflexivity.
  - reflexivity.
Defined.

(** X7.  Deleting the same id a second time changes nothing more. *)
Theorem deletePrompt_twice (env env' : Env) (pid : Z) (w : World) :
  fault env DbDeletePrompt = None ->
  fault env' DbDeletePrompt = None ->
  prompts (fst (deletePrompt env' pid (fst (deletePrompt env pid w))))
  = prompts (fst (deletePrompt env pid w)).
Proof.
  intros Hdel Hdel'.
  rewrite (deletePrompt_prompts env' pid _ Hdel').
  apply filter_other_ids. intros p Hin.
  rewrite (deletePrompt_prompts env pid w Hdel) in Hin.
  apply filter_In in Hin. destruct Hin as [_ Hid].
  now apply negb_true_iff, Z.eqb_neq in Hid.
Qed.

Lemma deletePrompt_twice_witness :
  prompts (fst (deletePrompt Sample.env_ok 1
                  (fst (deletePrompt Sample.env_revalidate_fails 1
                                     Sample.world_two_prompts))))
  = prompts (fst (deletePrompt Sample.env_revalidate_fails 1
                               Sample.world_two_prompts)).
Proof.
  apply (@deletePrompt_twice Sample.env_revalidate_fails Sample.env_ok 1
           Sample.world_two_prompts); reflexivity.
Defined.

(** X8.  Deleting the prompt that [addNewPrompt] has just inserted gives
    the table back as it was before the insert, provided the id the
    database assigned to the new row was not in use. *)
Theorem addNewPrompt_then_deletePrompt
        (env env' : Env) (fd : FormData) (t p : string) (w : World) :
  get fd "title" = Some t -> get fd "prompt" = Some p ->
  t <> "" -> p <> "" ->
  fault env DbInsertPrompt = None ->
  fault env' DbDeletePrompt = None ->
  (forall q, In q (prompts w) -> prompt_id q <> new_id env) ->
  prompts (fst (deletePrompt env' (new_id env) (fst (addNewPrompt env fd w))))
  = prompts w.
Proof.
  intros Ht Hp Hts Hps Hins Hdel Hfresh.
  rewrite (deletePrompt_prompts env' _ _ Hdel).
  destruct (@addNewPrompt_inserted env fd t p w Ht Hp Hts Hps Hins) as [-> _].
  rewrite filter_app, (filter_other_ids _ Hfresh).
  cbn [filter prompt_id]. rewrite Z.eqb_refl. cbn [negb].
  apply app_nil_r.
Qed.

Lemma addNewPrompt_then_deletePrompt_witness :
  prompts (fst (deletePrompt Sample.env_ok (new_id Sample.env_ok)
                  (fst (addNewPrompt Sample.env_ok Sample.form_summary
                                     Sample.world_two_prompts))))
  = prompts Sample.world_two_prompts.
Proof.
  apply (@addNewPrompt_then_deletePrompt Sample.env_ok Sample.env_ok
           Sample.form_summary "Summary" "Summarise the text"
           Sample.world_two_prompts);
    try reflexivity; try discriminate.
  intros q [<-|[<-|[]]]; cbn; discriminate.
Defined.

(* ------------------------------------------------------------------ *)
(** *** Settings: reading back, truncation, the failed insert *)

(** X9.  After [updateSettings] has completed, [getAllSettings] (its
    query completing) returns the row of the submitted form, whatever
    the table held before. *)
Theorem updateSettings_then_getAllSettings
        (env env' : Env) (fd : FormData) (w w' : World) :
  updateSettings env fd w = (w', Ok tt) ->
  fault env' DbSelectSettings = None ->
  snd (getAllSettings env' w') = Ok (Some (settings_row_of fd)).
Proof.
  intros Hup Hsel. pose proof (updateSettings_step env fd w) as Hs.
  rewrite Hup in Hs.
  unfold getAllSettings. unfold_action. rewrite Hsel.
  cbn [snd settings add_log]. rewrite Hs. reflexivity.
Qed.

Lemma updateSettings_then_getAllSettings_witness :
  snd (getAllSettings Sample.env_ok
         (fst (updateSettings Sample.env_ok Sample.form_settings
                              Sample.world_with_settings)))
  = Ok (Some (settings_row_of Sample.form_settings)).
Proof.
  apply (@updateSettings_then_getAllSettings Sample.env_ok Sample.env_ok
           Sample.form_settings Sample.world_with_settings
           (fst (updateSettings Sample.env_ok Sample.form_settings
                                Sample.world_with_settings)));
    reflexivity.
Defined.

Lemma truncated_field (n : Z) (field : option string) :
  0 <= n ->
  match field with
  | None => option_map (slice 0 n) field = None
  | Some v =>
      exists v', option_map (slice 0 n) field = Some v' /\
                 Z.of_nat (String.length v') <= n /\
                 (exists rest, v = v' ++ rest) /\
                 (Z.of_nat (String.length v) <= n -> v' = v)
  end.
Proof.
  intros Hn. destruct field as [v|]; [|reflexivity].
  exists (slice 0 n v). cbn [option_map]. split; [reflexivity|].
  split; [rewrite slice_0_length by assumption; lia|].
  split; [now apply slice_0_prefix|]. intros H. now apply slice_0_short.
Qed.

(** X10.  The row [updateSettings] stores has the submitted [username]
    cut to its first 100 characters and the submitted [system] cut to
    its first 1000 (each stored as submitted when within its limit); a
    field the form does not carry is stored as [undefined]. *)
Theorem updateSettings_truncates (env : Env) (fd : FormData) (w w' : World) :
  updateSettings env fd w = (w', Ok tt) ->
  exists row,
    settings w' = [row] /\
    match get fd "username" with
    | None => username row = None
    | Some v =>
        exists v', username row = Some v' /\
                   Z.of_nat (String.length v') <= 100 /\
                   (exists rest, v = v' ++ rest) /\
                   (Z.of_nat (String.length v) <= 100 -> v' = v)
    end /\
    match get fd "system" with
    | None => system row = None
    | Some v =>
        exists v', system row = Some v' /\
                   Z.of_nat (String.length v') <= 1000 /\
                   (exists rest, v = v' ++ rest) /\
                   (Z.of_nat (String.length v) <= 1000 -> v' = v)
    end.
Proof.
  intros Hup. pose proof (updateSettings_step env fd w) as Hs.
  rewrite Hup in Hs. exists (settings_row_of fd). split; [exact Hs|].
  unfold settings_row_of. cbn [username system]. split.
  - apply (@truncated_field 100 (get fd "username")). lia.
  - apply (@truncated_field 1000 (get fd "system")). lia.
Qed.

Lemma updateSettings_truncates_witness :
  exists row,
    settings (fst (updateSettings Sample.env_ok Sample.form_carol
                                  Sample.world_with_settings)) = [row] /\
    (exists v', username row = Some v' /\
                Z.of_nat (String.length v') <= 100 /\
                (exists rest, "carol" = v' ++ rest) /\
                (Z.of_nat (String.length "carol") <= 100 -> v' = "carol")) /\
    system row = None.
Proof.
  apply (@updateSettings_truncates Sample.env_ok Sample.form_carol
           Sample.world_with_settings
           (fst (updateSettings Sample.env_ok Sample.form_carol
                                Sample.world_with_settings))).
  reflexivity.
Defined.

(** X11.  [updateSettings] is not all or nothing: when a row is stored,
    the delete completes and the insert then throws, the call throws
    "Error updating settings" and the Settings table is left empty; the
    row that was stored is lost. *)
Theorem updateSettings_failed_insert_loses_row
        (env : Env) (fd : FormData) (e : Thrown) (w : World) :
  settings w <> [] ->
  fault env DbSelectSettings = None ->
  fault env DbDeleteSettings = None ->
  fault env DbInsertSettings = Some e ->
  snd (updateSettings env fd w) = Throw (Error "Error updating settings") /\
  settings (fst (updateSettings env fd w)) = [].
Proof.
  intros Hrows Hsel Hdel Hins. unfold updateSettings. unfold_action.
  rewrite Hsel. cbn [settings add_log].
  destruct (settings w) as [|s0 ss]; [congruence|]. cbn [length Nat.eqb].
  rewrite Hdel, Hins. split; reflexivity.
Qed.

Lemma updateSettings_failed_insert_loses_row_witness :
  snd (updateSettings Sample.env_insert_settings_fails Sample.form_settings
                      Sample.world_with_settings)
  = Throw (Error "Error updating settings") /\
  settings (fst (updateSettings Sample.env_insert_settings_fails
                                Sample.form_settings
                                Sample.world_with_settings)) = [].
Proof.
  apply (@updateSettings_failed_insert_loses_row
           Sample.env_insert_settings_fails Sample.form_settings
           (Error "connection lost") Sample.world_with_settings);
    try reflexivity; discriminate.
Defined.

(* ------------------------------------------------------------------ *)
(** *** [uploadFile]: what each block touches *)

Lemma logged_refl (w : World) : logged_without_revalidate w w.
Proof. exists []. split; [now rewrite app_nil_r|reflexivity]. Qed.

Lemma logged_trans (w1 w2 w3 : World) :
  logged_without_revalidate w1 w2 -> logged_without_revalidate w2 w3 ->
  logged_without_revalidate w1 w3.
Proof.
  intros (l1 & H1 & N1) (l2 & H2 & N2). exists (l1 ++ l2)%list. split.
  - rewrite H2, H1. now rewrite app_assoc.
  - unfold no_revalidate in *. rewrite forallb_app, N1, N2. reflexivity.
Qed.

Lemma logged_add (c : Call) (w w' : World) :
  is_revalidate c = false ->
  logged_without_revalidate w w' ->
  logged_without_revalidate w (add_log c w').
Proof.
  intros Hc H. apply (logged_trans H). exists [c]. split; [reflexivity|].
  unfold no_revalidate. cbn. now rewrite Hc.
Qed.

Lemma logged_same_log (w w' w'' : World) :
  log w'' = log w' ->
  logged_without_revalidate w w' -> logged_without_revalidate w w''.
Proof. intros E (l & H & N). exists l. now rewrite E. Qed.

(** The raw-file block touches the disk and the log only, and writes the
    bytes exactly when it completes with the flag set. *)
Lemma save_raw_file_frame (env : Env) (fileName : string)
      (buf : list Byte.byte) (w : World) :
  prompts (fst (save_raw_file env fileName buf w)) = prompts w /\
  settings (fst (save_raw_file env fileName buf w)) = settings w /\
  logged_without_revalidate w (fst (save_raw_file env fileName buf w)) /\
  disk (fst (save_raw_file env fileName buf w))
  = match snd (save_raw_file env fileName buf w) with
    | Ok _ =>
        if SAVE_RAW_DOCUMENT_LOCAL env
        then (disk w ++ [(path_join env
                            (path_join env (cwd env) ("/" ++ DOCUMENT_FOLDER))
                            fileName, buf)])%list
        else disk w
    | Throw _ => disk w
    end.
Proof.
  unfold save_raw_file. unfold_action.
  destruct (SAVE_RAW_DOCUMENT_LOCAL env); cbn [fst snd];
    [|repeat split; apply logged_refl].
  destruct (fault env FsMkdir) as [t1|]; cbn [fst snd].
  { repeat split. repeat (apply logged_add; [reflexivity|]). apply logged_refl. }
  destruct (fault env FsWriteFile) as [t2|]; cbn [fst snd];
    (repeat split; [repeat (apply logged_add; [reflexivity|]); apply logged_refl]).
Qed.

(** The parser touches the log only and returns the text of the file. *)
Lemma extract_text_frame (env : Env) (f : File) (w : World) :
  prompts (fst (extract_text env f (file_bytes f) (fileExtension (file_name f)) w))
  = prompts w /\
  settings (fst (extract_text env f (file_bytes f) (fileExtension (file_name f)) w))
  = settings w /\
  disk (fst (extract_text env f (file_bytes f) (fileExtension (file_name f)) w))
  = disk w /\
  embeddings (fst (extract_text env f (file_bytes f) (fileExtension (file_name f)) w))
  = embeddings w /\
  logged_without_revalidate w
    (fst (extract_text env f (file_bytes f) (fileExtension (file_name f)) w)) /\
  match snd (extract_text env f (file_bytes f) (fileExtension (file_name f)) w) with
  | Ok text => text = extracted_text env f
  | Throw _ => True
  end.
Proof.
  unfold extract_text, extracted_text. unfold_action.
  destruct (String.eqb (fileExtension (file_name f)) ".txt").
  { destruct (fault env FileText); cbn [fst snd]; repeat split;
      (apply logged_add; [reflexivity|apply logged_refl]). }
  destruct (String.eqb (fileExtension (file_name f)) ".pdf").
  { destruct (fault env PdfParse); cbn [fst snd]; repeat split;
      (apply logged_add; [reflexivity|apply logged_refl]). }
  destruct (String.eqb (fileExtension (file_name f)) ".docx").
  { destruct (fault env MammothExtractRawText); cbn [fst snd]; repeat split;
      (apply logged_add; [reflexivity|apply logged_refl]). }
  cbn [fst snd]. repeat split. apply logged_refl.
Qed.

(** Chunking, embedding and insertion touch the embeddings table and the
    log only. *)
Lemma chunk_embed_insert_frame (env : Env) (text : string) (d : Document)
      (w : World) :
  prompts (fst (chunk_embed_insert env text (Some d) w)) = prompts w /\
  settings (fst (chunk_embed_insert env text (Some d) w)) = settings w /\
  disk (fst (chunk_embed_insert env text (Some d) w)) = disk w /\
  logged_without_revalidate w (fst (chunk_embed_insert env text (Some d) w)).
Proof.
  unfold chunk_embed_insert. unfold_action.
  destruct (chunkUpText env text) as [chunks|t]; cbn [fst snd].
  2:{ repeat split. apply logged_add; [reflexivity|apply logged_refl]. }
  destruct (generateEmbedding env chunks) as [vectors|t]; cbn [fst snd].
  2:{ repeat split. repeat (apply logged_add; [reflexivity|]). apply logged_refl. }
  destruct (bulkInsertEmbeddings env chunks vectors (id d)
              (embeddings
                 (add_log BulkInsertEmbeddings
                    (add_log GenerateEmbedding (add_log ChunkUpText w)))))
    as [es r]; cbn [fst snd].
  repeat split.
  apply (@logged_same_log w
           (add_log BulkInsertEmbeddings
              (add_log GenerateEmbedding (add_log ChunkUpText w))));
    [reflexivity|].
  repeat (apply logged_add; [reflexivity|]). apply logged_refl.
Qed.

(** The inner [try]: it touches the embeddings table and the log only,
    and when it completes the chunks stored are those of the extracted
    text. *)
Lemma extract_and_embed_frame (env : Env) (f : File) (d : Document) (w : World) :
  prompts (fst (extract_and_embed env f (file_bytes f)
                  (fileExtension (file_name f)) (Some d) w)) = prompts w /\
  settings (fst (extract_and_embed env f (file_bytes f)
                   (fileExtension (file_name f)) (Some d) w)) = settings w /\
  disk (fst (extract_and_embed env f (file_bytes f)
               (fileExtension (file_name f)) (Some d) w)) = disk w /\
  logged_without_revalidate w
    (fst (extract_and_embed env f (file_bytes f)
            (fileExtension (file_name f)) (Some d) w)) /\
  match snd (extract_and_embed env f (file_bytes f)
               (fileExtension (file_name f)) (Some d) w) with
  | Ok _ =>
      exists chunks vectors,
        chunkUpText env (extracted_text env f) = Ok chunks /\
        generateEmbedding env chunks = Ok vectors /\
        bulkInsertEmbeddings env chunks vectors (id d) (embeddings w)
        = (embeddings (fst (extract_and_embed env f (file_bytes f)
                              (fileExtension (file_name f)) (Some d) w)), Ok tt)
  | Throw _ => True
  end.
Proof.
  unfold extract_and_embed. unfold try_catch, bind.
  destruct (extract_text_frame env f w) as (Hp1 & Hs1 & Hd1 & He1 & Hl1 & Ht1).
  destruct (extract_text env f (file_bytes f) (fileExtension (file_name f)) w)
    as [w1 [text|t1]]; cbn [fst snd] in *.
  - subst text.
    destruct (chunk_embed_insert_frame env (extracted_text env f) d w1)
      as (Hp2 & Hs2 & Hd2 & Hl2).
    destruct (chunk_embed_insert_cases env (extracted_text env f) d w1)
      as (Hflow & _).
    destruct (chunk_embed_insert env (extracted_text env f) (Some d) w1)
      as [w2 [ [] | t2 ] ]; cbn [fst snd] in *.
    + repeat split; try congruence.
      * exact (logged_trans Hl1 Hl2).
      * rewrite <- He1. exact Hflow.
    + unfold_action. cbn [fst snd prompts settings disk add_log].
      repeat split; try congruence.
      apply logged_add; [reflexivity|]. exact (logged_trans Hl1 Hl2).
  - unfold_action. cbn [fst snd prompts settings disk add_log].
    repeat split; try congruence.
    apply logged_add; [reflexivity|exact Hl1].
Qed.

Lemma rethrow_world (t : Thrown) (w : World) : fst (rethrow unit t w) = w.
Proof. destruct t; reflexivity. Qed.

Lemma rethrow_throws (t : Thrown) (w : World) :
  exists t', snd (rethrow unit t w) = Throw t'.
Proof. destruct t; eexists; reflexivity. Qed.

(** [uploadFile] from the raw-file block on, once the row is inserted
    and the buffer read. *)
Lemma uploadFile_main (env : Env) (fd : FormData) (f : File) (w : World) :
  file_field fd = Some f ->
  includes accepted_extensions (fileExtension (file_name f)) = true ->
  fault env DbSelectDocumentByName = None ->
  documents_named (file_name f) w = [] ->
  fault env DbInsertDocument = None ->
  fault env FileArrayBuffer = None ->
  uploadFile env fd w
  = match save_raw_file env (file_name f) (file_bytes f)
            (add_log FileArrayBuffer
               (set_documents (documents w ++ [document_row env f])
                  (add_log DbInsertDocument
                     (add_log DbSelectDocumentByName w)))) with
    | (w4, Ok _) =>
        match extract_and_embed env f (file_bytes f)
                (fileExtension (file_name f)) (Some (document_row env f)) w4 with
        | (w5, Ok a) => (w5, Ok a)
        | (w5, Throw t) => rethrow unit t w5
        end
    | (w4, Throw t) => rethrow unit t w4
    end.
Proof.
  intros Hf Hext Hsel Hnone Hins Hbuf.
  unfold uploadFile. unfold_action. rewrite Hf, Hext, Hsel. cbn [negb].
  rewrite documents_named_add_log, Hnone. cbn [hd_error].
  rewrite Hins, Hbuf. cbn [hd_error documents add_log].
  match goal with
  | |- context [save_raw_file env ?n ?b ?W] =>
      destruct (save_raw_file env n b W) as [w4 [ [] | t4 ] ]
  end; [|reflexivity].
  destruct (extract_and_embed env f (file_bytes f)
              (fileExtension (file_name f)) (Some (document_row env f)) w4)
    as [w5 [ [] | t5 ] ]; reflexivity.
Qed.

Lemma fold_left_snoc (A : Type) (l acc : list A) :
  fold_left (fun a c => (a ++ [c])%list) l acc = (acc ++ l)%list.
Proof.
  revert acc. induction l as [|c l IH]; intros acc; cbn.
  - now rewrite app_nil_r.
  - rewrite IH, <- app_assoc. reflexivity.
Qed.

(** A world whose log is the log of [w] followed, one by one, by the calls
    of [l]. *)
Lemma logged_calls (l : list Call) (w w1 : World) :
  log w1 = fold_left (fun a c => (a ++ [c])%list) l (log w) ->
  no_revalidate l = true ->
  logged_without_revalidate w w1.
Proof.
  intros Hlog Hn. exists l. split; [|exact Hn].
  rewrite Hlog. apply fold_left_snoc.
Qed.

(** What [uploadFile] touches, whatever its completion: the Prompts and
    Settings tables never; the log without any [revalidatePath]; the
    disk by the raw bytes only; the Documents table by at most the row
    of an accepted file whose name was not stored; and when it completes
    the chunks stored are those of the extracted text. *)
Lemma uploadFile_facts (env : Env) (fd : FormData) (w : World) :
  prompts (fst (uploadFile env fd w)) = prompts w /\
  settings (fst (uploadFile env fd w)) = settings w /\
  logged_without_revalidate w (fst (uploadFile env fd w)) /\
  upload_disk env fd w (fst (uploadFile env fd w)) (snd (uploadFile env fd w)) /\
  upload_flow env fd w (fst (uploadFile env fd w)) (snd (uploadFile env fd w)) /\
  (documents (fst (uploadFile env fd w)) = documents w \/
   exists f,
     file_field fd = Some f /\
     includes accepted_extensions (fileExtension (file_name f)) = true /\
     documents_named (file_name f) w = [] /\
     documents (fst (uploadFile env fd w))
     = (documents w ++ [document_row env f])%list).
Proof.
  destruct (file_field fd) as [f|] eqn:Hf.
  2:{ unfold uploadFile, try_catch. rewrite Hf. cbn.
      repeat split; auto. apply logged_refl. }
  destruct (includes accepted_extensions (fileExtension (file_name f))) eqn:Hext.
  2:{ rewrite (uploadFile_invalid env fd w Hf Hext). cbn.
      repeat split; auto. apply logged_refl. }
  destruct (fault env DbSelectDocumentByName) as [t|] eqn:Hsel.
  { unfold uploadFile. unfold_action. rewrite Hf, Hext, Hsel. cbn [negb].
    destruct t as [m|]; cbn; repeat split; auto;
      apply (@logged_calls [DbSelectDocumentByName]); reflexivity. }
  destruct (documents_named (file_name f) w) as [|d0 ds] eqn:Hnone.
  2:{ unfold uploadFile. unfold_action. rewrite Hf, Hext, Hsel. cbn [negb].
      rewrite documents_named_add_log, Hnone. cbn.
      repeat split; auto.
      apply (@logged_calls [DbSelectDocumentByName]); reflexivity. }
  destruct (fault env DbInsertDocument) as [t|] eqn:Hins.
  { unfold uploadFile. unfold_action. rewrite Hf, Hext, Hsel. cbn [negb].
    rewrite documents_named_add_log, Hnone. cbn [hd_error]. rewrite Hins.
    destruct t as [m|]; cbn; repeat split; auto;
      apply (@logged_calls [DbSelectDocumentByName; DbInsertDocument]);
      reflexivity. }
  assert (Hrow : forall w',
             documents w' = (documents w ++ [document_row env f])%list ->
             documents w' = documents w \/
             exists f0,
               Some f = Some f0 /\
               includes accepted_extensions (fileExtension (file_name f0)) = true /\
               documents_named (file_name f0) w = [] /\
               documents w' = (documents w ++ [document_row env f0])%list).
  { intros w' Hd. right. exists f. auto. }
  destruct (fault env FileArrayBuffer) as [t|] eqn:Hbuf.
  { unfold uploadFile. unfold_action. rewrite Hf, Hext, Hsel. cbn [negb].
    rewrite documents_named_add_log, Hnone. cbn [hd_error]. rewrite Hins, Hbuf.
    destruct t as [m|];
      cbn [fst snd rethrow throw_error throw upload_disk upload_flow];
      (split; [reflexivity|]); (split; [reflexivity|]);
      (split; [apply (@logged_calls [DbSelectDocumentByName; DbInsertDocument;
                                     FileArrayBuffer]); reflexivity|]);
      (split; [now left|]); (split; [exact I|]); apply Hrow; reflexivity. }
  rewrite (uploadFile_main env fd w Hf Hext Hsel Hnone Hins Hbuf).
  set (w3 := add_log FileArrayBuffer
               (set_documents (documents w ++ [document_row env f])
                  (add_log DbInsertDocument (add_log DbSelectDocumentByName w)))).
  assert (Hl3 : logged_without_revalidate w w3).
  { apply (@logged_calls [DbSelectDocumentByName; DbInsertDocument;
                          FileArrayBuffer]); reflexivity. }
  assert (Hdoc3 : documents w3 = (documents w ++ [document_row env f])%list)
    by reflexivity.
  assert (Hp3 : prompts w3 = prompts w) by reflexivity.
  assert (Hs3 : settings w3 = settings w) by reflexivity.
  assert (Hd3 : disk w3 = disk w) by reflexivity.
  assert (He3 : embeddings w3 = embeddings w) by reflexivity.
  clearbody w3.
  destruct (save_raw_file_frame env (file_name f) (file_bytes f) w3)
    as (Hp4 & Hs4 & Hl4 & Hd4).
  pose proof (save_raw_file_cases env (file_name f) (file_bytes f) w3) as Hc4.
  destruct (save_raw_file env (file_name f) (file_bytes f) w3)
    as [w4 [ [] | t4 ] ]; cbn [fst snd] in *.
  - destruct Hc4 as (_ & Hdoc4 & He4).
    destruct (extract_and_embed_frame env f (document_row env f) w4)
      as (Hp5 & Hs5 & Hd5 & Hl5 & Hflow).
    pose proof (@extract_and_embed_cases env f (file_bytes f) _
                  (document_row env f) w4 Hext) as Hc5.
    destruct (extract_and_embed env f (file_bytes f)
                (fileExtension (file_name f)) (Some (document_row env f)) w4)
      as [w5 [ [] | t5 ] ]; cbn [fst snd] in *.
    + destruct Hc5 as (_ & Hdoc5).
      split; [congruence|]. split; [congruence|].
      split; [exact (logged_trans Hl3 (logged_trans Hl4 Hl5))|].
      split; [|split].
      * exists f. split; [exact Hf|]. unfold raw_file_path.
        rewrite Hd5, Hd4, Hd3. reflexivity.
      * destruct Hflow as (chunks & vectors & Hch & Hge & Hbu).
        exists f, chunks, vectors.
        split; [exact Hf|]. split; [exact Hch|]. split; [exact Hge|].
        cbn [id document_row] in Hbu. rewrite <- Hbu. congruence.
      * apply Hrow. congruence.
    + destruct Hc5 as (_ & Hdoc5 & _).
      rewrite rethrow_world.
      destruct (rethrow_throws t5 w5) as [t' ->].
      split; [congruence|]. split; [congruence|].
      split; [exact (logged_trans Hl3 (logged_trans Hl4 Hl5))|].
      split; [|split; [exact I|apply Hrow; congruence]].
      cbn [upload_disk]. rewrite Hd5, Hd4, Hd3.
      destruct (SAVE_RAW_DOCUMENT_LOCAL env); [right|now left].
      split; [reflexivity|]. exists f. split; [exact Hf|reflexivity].
  - destruct Hc4 as (_ & _ & Hdoc4 & He4).
    rewrite rethrow_world.
    destruct (rethrow_throws t4 w4) as [t' ->].
    split; [congruence|]. split; [congruence|].
    split; [exact (logged_trans Hl3 Hl4)|].
    split; [left; congruence|]. split; [exact I|apply Hrow; congruence].
Qed.

(* ------------------------------------------------------------------ *)
(** *** What the actions leave alone *)

(** X12.  [getAllPrompts], [getAllSettings], [getAllDocuments] and
    [revalidatePathAction] change no table and nothing on disk, whether
    they complete or throw. *)
Theorem read_actions_change_no_table (env : Env) (path : string) (w : World) :
  same_tables w (fst (getAllPrompts env w)) /\
  same_tables w (fst (getAllSettings env w)) /\
  same_tables w (fst (getAllDocuments env w)) /\
  same_tables w (fst (revalidatePathAction env path w)).
Proof.
  unfold same_tables, getAllPrompts, getAllSettings, getAllDocuments,
    revalidatePathAction.
  unfold_action.
  destruct (fault env DbSelectPrompts), (fault env DbSelectSettings),
    (fault env DbSelectDocuments), (fault env (RevalidatePath path));
    cbn [fst]; repeat split.
Qed.

(** X13.  Each writing action changes its own table only:
    [addNewPrompt] and [deletePrompt] leave settings, documents, chunks
    and disk as they were, [updateSettings] leaves prompts, documents,
    chunks and disk, and [uploadFile] leaves prompts and settings,
    whether they complete or throw. *)
Theorem writing_actions_keep_other_tables
        (env : Env) (fd : FormData) (pid : Z) (w : World) :
  (settings (fst (addNewPrompt env fd w)) = settings w /\
   documents (fst (addNewPrompt env fd w)) = documents w /\
   embeddings (fst (addNewPrompt env fd w)) = embeddings w /\
   disk (fst (addNewPrompt env fd w)) = disk w) /\
  (settings (fst (deletePrompt env pid w)) = settings w /\
   documents (fst (deletePrompt env pid w)) = documents w /\
   embeddings (fst (deletePrompt env pid w)) = embeddings w /\
   disk (fst (deletePrompt env pid w)) = disk w) /\
  (prompts (fst (updateSettings env fd w)) = prompts w /\
   documents (fst (updateSettings env fd w)) = documents w /\
   embeddings (fst (updateSettings env fd w)) = embeddings w /\
   disk (fst (updateSettings env fd w)) = disk w) /\
  (prompts (fst (uploadFile env fd w)) = prompts w /\
   settings (fst (uploadFile env fd w)) = settings w).
Proof.
  split; [|split; [|split]].
  - unfold addNewPrompt.
    destruct (negb (truthy (get fd "prompt")) || negb (truthy (get fd "title")));
      [repeat split|].
    destruct (get fd "prompt"), (get fd "title"); try (repeat split; fail).
    unfold_action.
    destruct (fault env DbInsertPrompt); [repeat split|].
    destruct (fault env (RevalidatePath "/prompts")); repeat split.
  - unfold deletePrompt. unfold_action.
    destruct (fault env DbDeletePrompt); [repeat split|].
    destruct (fault env (RevalidatePath "/prompts")); repeat split.
  - unfold updateSettings. unfold_action.
    destruct (fault env DbSelectSettings); [repeat split|].
    cbn [settings add_log].
    destruct (settings w); cbn [length Nat.eqb].
    + destruct (fault env DbInsertSettings); [repeat split|].
      destruct (fault env (RevalidatePath "/settings")); repeat split.
    + destruct (fault env DbDeleteSettings); [repeat split|].
      destruct (fault env DbInsertSettings); [repeat split|].
      destruct (fault env (RevalidatePath "/settings")); repeat split.
  - destruct (uploadFile_facts env fd w) as (Hp & Hs & _). now split.
Qed.

Lemma no_revalidate_In (l : list Call) (path : string) :
  no_revalidate l = true -> ~ In (RevalidatePath path) l.
Proof.
  unfold no_revalidate. rewrite forallb_forall. intros H Hin.
  specialize (H _ Hin). discriminate.
Qed.

(** X14.  [uploadFile] never revalidates a path: whatever its
    completion, none of the external calls it made is a
    [revalidatePath]. *)
Theorem uploadFile_never_revalidates (env : Env) (fd : FormData) (w : World) :
  exists calls,
    log (fst (uploadFile env fd w)) = (log w ++ calls)%list /\
    forall path, ~ In (RevalidatePath path) calls.
Proof.
  destruct (uploadFile_facts env fd w) as (_ & _ & (l & Hl & Hn) & _).
  exists l. split; [exact Hl|]. intros path. now apply no_revalidate_In.
Qed.

(** X15.  [uploadFile] writes to disk only when
    [SAVE_RAW_DOCUMENT_LOCAL] is set, and then at most one file: the
    bytes of the uploaded file, at the upload's name under
    [.documents] in the working directory.  A completed upload has
    written it when the flag is set; an upload that threw may have. *)
Theorem uploadFile_disk (env : Env) (fd : FormData) (w : World) :
  match snd (uploadFile env fd w) with
  | Ok _ =>
      exists f,
        file_field fd = Some f /\
        disk (fst (uploadFile env fd w))
        = if SAVE_RAW_DOCUMENT_LOCAL env
          then (disk w ++ [(raw_file_path env f, file_bytes f)])%list
          else disk w
  | Throw _ =>
      disk (fst (uploadFile env fd w)) = disk w \/
      (SAVE_RAW_DOCUMENT_LOCAL env = true /\
       exists f,
         file_field fd = Some f /\
         disk (fst (uploadFile env fd w))
         = (disk w ++ [(raw_file_path env f, file_bytes f)])%list)
  end.
Proof.
  destruct (uploadFile_facts env fd w) as (_ & _ & _ & Hd & _). exact Hd.
Qed.

(** X16.  When [uploadFile] completes, the embeddings table is what
    [bulkInsertEmbeddings] made of it when given the chunks of the text
    extracted from the file, the vectors [generateEmbedding] returned
    for these very chunks, and the id of the Document row just
    inserted. *)
Theorem uploadFile_stores_chunks_of_text
        (env : Env) (fd : FormData) (w w' : World) :
  uploadFile env fd w = (w', Ok tt) ->
  exists f chunks vectors,
    file_field fd = Some f /\
    chunkUpText env (extracted_text env f) = Ok chunks /\
    generateEmbedding env chunks = Ok vectors /\
    bulkInsertEmbeddings env chunks vectors (new_id env) (embeddings w)
    = (embeddings w', Ok tt).
Proof.
  intros Hrun.
  destruct (uploadFile_facts env fd w) as (_ & _ & _ & _ & Hflow & _).
  rewrite Hrun in Hflow. exact Hflow.
Qed.

Lemma uploadFile_stores_chunks_of_text_witness :
  exists f chunks vectors,
    file_field (Sample.form_of Sample.notes_txt) = Some f /\
    chunkUpText Sample.env_save (extracted_text Sample.env_save f) = Ok chunks /\
    generateEmbedding Sample.env_save chunks = Ok vectors /\
    bulkInsertEmbeddings Sample.env_save chunks vectors
      (new_id Sample.env_save) (embeddings Sample.world_with_report)
    = (embeddings (fst (uploadFile Sample.env_save
                                   (Sample.form_of Sample.notes_txt)
                                   Sample.world_with_report)), Ok tt).
Proof.
  apply (@uploadFile_stores_chunks_of_text Sample.env_save
           (Sample.form_of Sample.notes_txt) Sample.world_with_report
           (fst (uploadFile Sample.env_save (Sample.form_of Sample.notes_txt)
                            Sample.world_with_report))).
  reflexivity.
Defined.

Example uploadFile_notes_saved :
  uploadFile Sample.env_save (Sample.form_of Sample.notes_txt) Sample.empty_world
  = (mkWorld [] []
       [mkDocument 7 "notes.txt" 11 ".txt" 1700000000]
       [mkEmbedding "hell" [0.5; 0.25; 1]%float 7;
        mkEmbedding "o wo" [0.5; 0.25; 1]%float 7;
        mkEmbedding "rld" [0.5; 0.25; 1]%float 7]
       [("/srv/app/.documents/notes.txt", list_byte_of_string "hello world")]
       [DbSelectDocumentByName; DbInsertDocument; FileArrayBuffer; FsMkdir;
        FsWriteFile; FileText; ChunkUpText; GenerateEmbedding;
        BulkInsertEmbeddings],
     Ok tt).
Proof. reflexivity. Qed.

(* ------------------------------------------------------------------ *)
(** *** [uploadFile]: names, retries, the listing *)

Lemma documents_named_nil_not_In (n : string) (w : World) :
  documents_named n w = [] -> ~ In n (document_names w).
Proof.
  unfold documents_named, document_names. intros Hnil Hin.
  apply in_map_iff in Hin as (d & Hname & Hd).
  assert (Hf : In d (filter (fun d => String.eqb (name d) n) (documents w))).
  { apply filter_In. split; [exact Hd|]. rewrite Hname. apply String.eqb_refl. }
  rewrite Hnil in Hf. exact Hf.
Qed.

(** X17.  [uploadFile] keeps the names of the stored documents distinct:
    it inserts a row only after its lookup found no document of that
    name. *)
Theorem uploadFile_names_stay_unique (env : Env) (fd : FormData) (w : World) :
  NoDup (document_names w) ->
  NoDup (document_names (fst (uploadFile env fd w))).
Proof.
  intros Hnd.
  destruct (uploadFile_facts env fd w) as (_ & _ & _ & _ & _ & [Hd|Hd]).
  - unfold document_names. now rewrite Hd.
  - destruct Hd as (f & _ & _ & Hnone & Hd).
    unfold document_names. rewrite Hd, map_app. cbn [map name document_row].
    apply NoDup_app; [exact Hnd|repeat constructor; intros []|].
    intros n Hin [<-|[]].
    exact (documents_named_nil_not_In _ _ Hnone Hin).
Qed.

Lemma uploadFile_names_stay_unique_witness :
  NoDup (document_names
           (fst (uploadFile Sample.env_ok (Sample.form_of Sample.notes_txt)
                            Sample.world_three_documents))).
Proof.
  apply (@uploadFile_names_stay_unique Sample.env_ok
           (Sample.form_of Sample.notes_txt) Sample.world_three_documents).
  repeat constructor; cbn; intuition discriminate.
Defined.

(** X18.  A form without a file makes [uploadFile] throw "No file
    provided" with nothing done: no external call, no table changed. *)
Theorem uploadFile_rejects_missing_file (env : Env) (fd : FormData) (w : World) :
  file_field fd = None ->
  uploadFile env fd w = (w, Throw (Error "No file provided")).
Proof.
  intros Hf. unfold uploadFile, try_catch. rewrite Hf. reflexivity.
Qed.

Lemma uploadFile_rejects_missing_file_witness :
  uploadFile Sample.env_ok Sample.form_no_file Sample.world_with_notes
  = (Sample.world_with_notes, Throw (Error "No file provided")).
Proof.
  apply (@uploadFile_rejects_missing_file Sample.env_ok Sample.form_no_file
           Sample.world_with_notes).
  reflexivity.
Defined.

(** Once the lookup has answered and the insert has completed, the row
    is in the table, whatever follows. *)
Lemma uploadFile_inserts (env : Env) (fd : FormData) (f : File) (w : World) :
  file_field fd = Some f ->
  includes accepted_extensions (fileExtension (file_name f)) = true ->
  fault env DbSelectDocumentByName = None ->
  documents_named (file_name f) w = [] ->
  fault env DbInsertDocument = None ->
  documents (fst (uploadFile env fd w))
  = (documents w ++ [document_row env f])%list.
Proof.
  intros Hf Hext Hsel Hnone Hins.
  destruct (fault env FileArrayBuffer) as [t|] eqn:Hbuf.
  - unfold uploadFile. unfold_action. rewrite Hf, Hext, Hsel. cbn [negb].
    rewrite documents_named_add_log, Hnone. cbn [hd_error]. rewrite Hins, Hbuf.
    destruct t; reflexivity.
  - pose proof (uploadFile_after_insert env fd w Hf Hext Hsel Hnone Hins Hbuf) as H.
    destruct (uploadFile env fd w) as [w' [ [] | t ] ]; cbn [fst]; apply H.
Qed.

(** A lookup that finds a document of the file's name ends the upload. *)
Lemma uploadFile_found (env : Env) (fd : FormData) (f : File) (w : World) :
  file_field fd = Some f ->
  includes accepted_extensions (fileExtension (file_name f)) = true ->
  fault env DbSelectDocumentByName = None ->
  documents_named (file_name f) w <> [] ->
  uploadFile env fd w
  = (add_log DbSelectDocumentByName w,
     Throw (Error "This document already exists")).
Proof.
  intros Hf Hext Hsel Hfound.
  unfold uploadFile. unfold_action. rewrite Hf, Hext, Hsel. cbn [negb].
  rewrite documents_named_add_log.
  destruct (documents_named (file_name f) w); [congruence|reflexivity].
Qed.

(** X19.  An upload that inserted its Document row blocks every later
    upload of a file of that name, also when the first upload threw
    after the insert (disk, parser, chunking, embedding or insertion
    failure): the retry throws "This document already exists" once its
    lookup has answered. *)
Theorem uploadFile_retry_is_duplicate
        (env env' : Env) (fd fd' : FormData) (f f' : File) (w : World) :
  file_field fd = Some f ->
  includes accepted_extensions (fileExtension (file_name f)) = true ->
  fault env DbSelectDocumentByName = None ->
  documents_named (file_name f) w = [] ->
  fault env DbInsertDocument = None ->
  file_field fd' = Some f' ->
  file_name f' = file_name f ->
  fault env' DbSelectDocumentByName = None ->
  snd (uploadFile env' fd' (fst (uploadFile env fd w)))
  = Throw (Error "This document already exists").
Proof.
  intros Hf Hext Hsel Hnone Hins Hf' Hname Hsel'.
  pose proof (uploadFile_inserts env fd w Hf Hext Hsel Hnone Hins) as Hd.
  rewrite (@uploadFile_found env' fd' f' (fst (uploadFile env fd w)));
    try assumption; [reflexivity|now rewrite Hname|].
  unfold documents_named. rewrite Hd, filter_app, Hname.
  cbn [filter name document_row]. rewrite String.eqb_refl.
  intros H. apply app_eq_nil in H as [_ H]. discriminate.
Qed.

Lemma uploadFile_retry_is_duplicate_witness :
  snd (uploadFile Sample.env_ok (Sample.form_of Sample.notes_txt)
         (fst (uploadFile Sample.env_no_model (Sample.form_of Sample.notes_txt)
                          Sample.world_with_report)))
  = Throw (Error "This document already exists").
Proof.
  apply (@uploadFile_retry_is_duplicate Sample.env_no_model Sample.env_ok
           (Sample.form_of Sample.notes_txt) (Sample.form_of Sample.notes_txt)
           Sample.notes_txt Sample.notes_txt Sample.world_with_report);
    reflexivity.
Defined.

(** X20.  Every row of the Documents table keeps an accepted extension
    that is the dispatch key of its name: if this holds of the stored
    rows, it holds of the rows after any [uploadFile], completed or
    not. *)
Theorem uploadFile_keeps_extensions_accepted
        (env : Env) (fd : FormData) (w : World) :
  (forall d, In d (documents w) ->
             extension d = fileExtension (name d) /\
             In (extension d) accepted_extensions) ->
  forall d, In d (documents (fst (uploadFile env fd w))) ->
            extension d = fileExtension (name d) /\
            In (extension d) accepted_extensions.
Proof.
  intros Hw.
  assert (Hwf : documents_wf w).
  { unfold documents_wf. apply Forall_forall. intros d Hd.
    destruct (Hw d Hd) as [He Hin]. split; [exact He|].
    unfold accepted_extensions in *. cbn in Hin.
    destruct Hin as [<-|[<-|[<-|[]]]]; reflexivity. }
  pose proof (uploadFile_preserves_documents_wf env fd Hwf) as Hwf'.
  unfold documents_wf in Hwf'. rewrite Forall_forall in Hwf'.
  intros d Hd. destruct (Hwf' d Hd) as [He Hacc]. split; [exact He|].
  destruct (includes_accepted _ Hacc) as [ -> | [ -> | -> ] ]; cbn; auto.
Qed.

Lemma uploadFile_keeps_extensions_accepted_witness :
  forall d,
    In d (documents (fst (uploadFile Sample.env_disk_full
                                     (Sample.form_of Sample.notes_txt)
                                     Sample.world_three_documents))) ->
    extension d = fileExtension (name d) /\
    In (extension d) accepted_extensions.
Proof.
  apply (@uploadFile_keeps_extensions_accepted Sample.env_disk_full
           (Sample.form_of Sample.notes_txt) Sample.world_three_documents).
  intros d [<-|[<-|[<-|[]]]]; cbn; auto.
Defined.

(* ------------------------------------------------------------------ *)
(** *** The names [uploadFile] accepts *)

(** Splitting around a separator splits both sides. *)
Lemma split_app (sep : ascii) (a b : string) :
  split sep (a ++ String sep b) = (split sep a ++ split sep b)%list.
Proof.
  induction a as [|c a IH]; cbn [append split].
  - rewrite Ascii.eqb_refl. reflexivity.
  - rewrite IH. destruct (Ascii.eqb c sep); [reflexivity|].
    destruct (split sep a) as [|seg segs] eqn:E.
    + exfalso. exact (split_not_nil sep a E).
    + reflexivity.
Qed.

Lemma pop_app (A : Type) (l1 l2 : list A) :
  l2 <> [] -> pop (l1 ++ l2) = pop l2.
Proof.
  intros H. destruct (exists_last H) as (l & x & ->).
  rewrite app_assoc, !pop_app_last. reflexivity.
Qed.

(** The dispatch key looks at what follows the last separator only. *)
Lemma fileExtension_app (before rest : string) :
  fileExtension (before ++ "." ++ rest) = fileExtension rest.
Proof.
  unfold fileExtension. cbn [append]. rewrite split_app.
  rewrite pop_app by apply split_not_nil. reflexivity.
Qed.

(** X21.  The file names [uploadFile] accepts are those that end in
    [.txt], [.pdf] or [.docx], and the three names [txt], [pdf] and
    [docx] themselves, which hold no ['.'] and are taken whole as their
    own extension; every other name is rejected, a name in another case
    ([.TXT]) included. *)
Theorem uploadFile_accepted_names (fileName : string) :
  includes accepted_extensions (fileExtension fileName) = true <->
  exists seg,
    In seg accepted_suffixes /\
    (fileName = seg \/ exists before, fileName = before ++ "." ++ seg).
Proof.
  split.
  - intros Hacc.
    destruct (pop_split "." fileName) as (seg & Hpop & _ & Hshape).
    exists seg. split.
    + assert (Hkey : fileExtension fileName = "." ++ seg)
        by (unfold fileExtension; now rewrite Hpop).
      rewrite Hkey in Hacc.
      destruct (includes_accepted _ Hacc) as [E|[E|E]];
        injection E as ->; cbn; auto.
    + destruct Hshape as [(_ & ->)|(before & ->)]; [now left|].
      right. now exists before.
  - intros (seg & Hin & Hshape).
    assert (Hseg : includes accepted_extensions (fileExtension seg) = true).
    { cbn in Hin. destruct Hin as [<-|[<-|[<-|[]]]]; reflexivity. }
    destruct Hshape as [->|(before & ->)]; [exact Hseg|].
    now rewrite fileExtension_app.
Qed.

(* ------------------------------------------------------------------ *)
(** *** Upload, then list *)

Lemma orderBy_newest_last (l : list Document) (x : Document) :
  (forall d, In d l -> createdAt d < createdAt x) ->
  orderBy_desc_createdAt (l ++ [x]) = x :: orderBy_desc_createdAt l.
Proof.
  unfold orderBy_desc_createdAt. rewrite fold_right_app. cbn [fold_right insert_desc].
  induction l as [|a l IH]; intros Hold; [reflexivity|].
  cbn [fold_right]. rewrite IH by (intros d Hd; apply Hold; now right).
  cbn [insert_desc].
  assert (Ha : createdAt a < createdAt x) by (apply Hold; now left).
  destruct (createdAt x <=? createdAt a) eqn:E; [apply Z.leb_le in E; lia|].
  reflexivity.
Qed.

(** X22.  A document whose row was inserted by [uploadFile] with a
    creation time later than that of every stored document comes first
    in the next [getAllDocuments], followed by the documents that were
    stored; this holds also when the upload threw after the insert. *)
Theorem uploadFile_then_getAllDocuments
        (env env' : Env) (fd : FormData) (f : File) (w : World) :
  file_field fd = Some f ->
  includes accepted_extensions (fileExtension (file_name f)) = true ->
  fault env DbSelectDocumentByName = None ->
  documents_named (file_name f) w = [] ->
  fault env DbInsertDocument = None ->
  (forall d, In d (documents w) -> createdAt d < now env) ->
  fault env' DbSelectDocuments = None ->
  exists rest,
    snd (getAllDocuments env' (fst (uploadFile env fd w)))
    = Ok (document_row env f :: rest) /\
    Permutation (documents w) rest /\
    StronglySorted newer_or_equal rest.
Proof.
  intros Hf Hext Hsel Hnone Hins Hnew Hlist.
  pose proof (uploadFile_inserts env fd w Hf Hext Hsel Hnone Hins) as Hd.
  exists (orderBy_desc_createdAt (documents w)). split; [|split].
  - unfold getAllDocuments. unfold_action. rewrite Hlist.
    cbn [snd documents add_log]. rewrite Hd.
    now rewrite orderBy_newest_last.
  - apply orderBy_desc_createdAt_perm.
  - apply orderBy_desc_createdAt_sorted.
Qed.

Lemma uploadFile_then_getAllDocuments_witness :
  exists rest,
    snd (getAllDocuments Sample.env_ok
           (fst (uploadFile Sample.env_no_model
                            (Sample.form_of Sample.notes_txt)
                            Sample.world_three_documents)))
    = Ok (document_row Sample.env_no_model Sample.notes_txt :: rest) /\
    Permutation (documents Sample.world_three_documents) rest /\
    StronglySorted newer_or_equal rest.
Proof.
  apply (@uploadFile_then_getAllDocuments Sample.env_no_model Sample.env_ok
           (Sample.form_of Sample.notes_txt) Sample.notes_txt
           Sample.world_three_documents); try reflexivity.
  intros d [<-|[<-|[<-|[]]]]; reflexivity.
Defined.

(* ------------------------------------------------------------------ *)
(** *** Failures before the Document row, and prompts stored twice *)

(** X23.  When the document lookup throws, or finds no document and the
    insert then throws, [uploadFile] throws with every table and the
    disk as they were: nothing is stored before the Document row is. *)
Theorem uploadFile_database_failure_stores_nothing
        (env : Env) (fd : FormData) (f : File) (e : Thrown) (w : World) :
  file_field fd = Some f ->
  fault env DbSelectDocumentByName = Some e \/
  (fault env DbSelectDocumentByName = None /\
   documents_named (file_name f) w = [] /\
   fault env DbInsertDocument = Some e) ->
  same_tables w (fst (uploadFile env fd w)) /\
  exists t, snd (uploadFile env fd w) = Throw t.
Proof.
  intros Hf Hfail.
  destruct (includes accepted_extensions (fileExtension (file_name f))) eqn:Hext.
  2:{ rewrite (uploadFile_invalid env fd w Hf Hext). cbn [fst snd].
      split; [repeat split|eexists; reflexivity]. }
  unfold uploadFile. unfold_action. rewrite Hf, Hext. cbn [negb].
  destruct Hfail as [Hsel|(Hsel & Hnone & Hins)]; rewrite Hsel.
  - destruct e; cbn [fst snd rethrow throw_error throw];
      (split; [repeat split|eexists; reflexivity]).
  - rewrite documents_named_add_log, Hnone. cbn [hd_error]. rewrite Hins.
    destruct e; cbn [fst snd rethrow throw_error throw];
      (split; [repeat split|eexists; reflexivity]).
Qed.

Lemma uploadFile_database_failure_stores_nothing_witness :
  same_tables Sample.world_with_report
    (fst (uploadFile Sample.env_db_down (Sample.form_of Sample.notes_txt)
                     Sample.world_with_report)) /\
  exists t,
    snd (uploadFile Sample.env_db_down (Sample.form_of Sample.notes_txt)
                    Sample.world_with_report) = Throw t.
Proof.
  apply (@uploadFile_database_failure_stores_nothing Sample.env_db_down
           (Sample.form_of Sample.notes_txt) Sample.notes_txt
           (Error "connect ECONNREFUSED") Sample.world_with_report).
  - reflexivity.
  - left. reflexivity.
Defined.

(** X24.  [addNewPrompt] does not look for a prompt already stored:
    submitting the same form twice, both inserts completing, adds two
    rows with the same title and content. *)
Theorem addNewPrompt_twice_stores_twice
        (env env' : Env) (fd : FormData) (t p : string) (w : World) :
  get fd "title" = Some t -> get fd "prompt" = Some p ->
  t <> "" -> p <> "" ->
  fault env DbInsertPrompt = None ->
  fault env' DbInsertPrompt = None ->
  prompts (fst (addNewPrompt env' fd (fst (addNewPrompt env fd w))))
  = (prompts w
       ++ [mkPrompt (new_id env) (slice 0 150 t) (slice 0 1000 p);
           mkPrompt (new_id env') (slice 0 150 t) (slice 0 1000 p)])%list.
Proof.
  intros Ht Hp Hts Hps Hins Hins'.
  destruct (@addNewPrompt_inserted env' fd t p (fst (addNewPrompt env fd w))
              Ht Hp Hts Hps Hins') as [-> _].
  destruct (@addNewPrompt_inserted env fd t p w Ht Hp Hts Hps Hins) as [-> _].
  rewrite <- app_assoc. reflexivity.
Qed.

Lemma addNewPrompt_twice_stores_twice_witness :
  prompts (fst (addNewPrompt Sample.env_ok Sample.form_summary
                  (fst (addNewPrompt Sample.env_revalidate_fails
                                     Sample.form_summary
                                     Sample.world_two_prompts))))
  = (prompts Sample.world_two_prompts
       ++ [mkPrompt (new_id Sample.env_revalidate_fails)
                    (slice 0 150 "Summary") (slice 0 1000 "Summarise the text");
           mkPrompt (new_id Sample.env_ok)
                    (slice 0 150 "Summary") (slice 0 1000 "Summarise the text")])%list.
Proof.
  apply (@addNewPrompt_twice_stores_twice Sample.env_revalidate_fails
           Sample.env_ok Sample.form_summary "Summary" "Summarise the text"
           Sample.world_two_prompts);
    try reflexivity; discriminate.
Defined.
